(** * LCV optimisation: the dispatch heuristic and the six-stage simulation

    A shallow embedding of [run_lcv_optimization] (api.py): the
    computation from the point where the filtered request rows are sorted
    (line 97) to the returned [results] structure (line 175), the filters
    and the HTTP errors that come before it (lines 70 to 96), and the
    renaming of the columns by the loader (lines 25 to 48), with the
    properties of the schedule and of the timeline that follow.

    Conventions of the embedding.
    - A time is the number of microseconds since 0001-01-01 00:00:00 (the
      resolution of [datetime] and [timedelta]).  The times of a run are of
      two kinds: the midnight of line 101 is a [datetime], the values of
      the column [create_date] are pandas [Timestamp]s, and [max] and [+]
      hand on either.  The embedding gives both the arithmetic of
      [datetime], exact to the microsecond, within the years 1 to 9999.
      Beyond [datetime_max] a [datetime] raises [OverflowError] while a
      [Timestamp] raises another exception or goes on, so the embedding
      stops there with [OutOfRange] and says nothing of what follows: the
      properties are about runs that stay within the range.
    - The columns [distance] and [duration] hold finite numbers; a finite
      binary float is a rational, so they are values of [Q] (rows with a
      missing value are dropped by the loader).
    - The module-level generator of [random] is a state that every draw
      reads and advances; it is threaded through the run explicitly.
    - Vehicle identifiers are the values of one column: integers or
      strings.  What the code asks of them (dictionary key, [sorted],
      truth value) is the interface [LcvId].
    - The sort of the request frame, [sort_values(by='create_date')], is
      a function of the library: the computation takes it as a parameter,
      and the properties that depend on it state what they ask of it.
    - The inputs of the computation are the column [df['lcv_id']], the
      day and the filtered rows.  The endpoint, [optimize], filters the
      frame and calls it; the frame that the loader returns and the
      reading of the date by [strptime] are inputs of the endpoint.  Of
      the loader, the labels of the columns are modelled, not the rows. *)

From Stdlib Require Import ZArith QArith_base Lia Ascii String DecimalString.
From stdpp Require Import base gmap list strings sorting.

Local Open Scope Z_scope.

(** ** Exceptions and results *)

(** [KeyError] is the exception of a dictionary that lacks the key.
    [OutOfRange] marks a time or a duration outside the range of
    [datetime] and [timedelta]; it stands for no one exception of the
    program (see the conventions above). *)
Inductive exn : Set :=
  | KeyError
  | OutOfRange.

Inductive result (A : Type) : Type :=
  | Ok (a : A)
  | Raise (e : exn).
Arguments Ok {A} a.
Arguments Raise {A} e.

(** ** datetime and timedelta *)

Module Datetime.

Definition us_per_second : Z := 1000000.
Definition us_per_minute : Z := 60 * us_per_second.
Definition us_per_hour : Z := 60 * us_per_minute.
Definition us_per_day : Z := 24 * us_per_hour.

(** [date.max.toordinal()] is 3652059: the days of the years 1 to 9999. *)
Definition max_ordinal : Z := 3652059.

(** [datetime.min] and [datetime.max]
    (9999-12-31 23:59:59.999999). *)
Definition datetime_min : Z := 0.
Definition datetime_max : Z := max_ordinal * us_per_day - 1.

Definition valid (t : Z) : Prop := datetime_min ≤ t ≤ datetime_max.

Definition validb (t : Z) : bool :=
  (datetime_min <=? t) && (t <=? datetime_max).

(** [timedelta] keeps a magnitude of at most 999999999 days. *)
Definition timedelta_min : Z := - 999999999 * us_per_day.
Definition timedelta_max : Z := 1000000000 * us_per_day - 1.

(** [timedelta(minutes=n)] for an integer [n], in microseconds. *)
Definition timedelta_minutes (n : Z) : result Z :=
  let d := n * us_per_minute in
  if (timedelta_min <=? d) && (d <=? timedelta_max) then Ok d
  else Raise OutOfRange.

(** [t + d] for a time [t] and a timedelta [d], as far as the result is
    within the years 1 to 9999. *)
Definition add (t d : Z) : result Z :=
  if validb (t + d) then Ok (t + d) else Raise OutOfRange.

(** [datetime.combine(start_date, datetime.min.time())]: midnight of the
    day whose ordinal is [start_date + 1]. *)
Definition combine_midnight (start_date : Z) : Z := start_date * us_per_day.

(** 1000-01-01 00:00:00, the first time whose year has four digits: the
    years 1 to 999 have 364877 days. *)
Definition year_1000 : Z := 364877 * us_per_day.

End Datetime.

(** ** The random source *)

(** The two ways the code draws from [random]:
    [jitter] is [timedelta(minutes=random.uniform(0, 5))], a float number
    of minutes rounded by [timedelta] to whole microseconds, and
    [randint a b] is [random.randint(a, b)]. *)
Record RandomSource : Type := {
  rng : Type;
  jitter : rng → Z * rng;
  randint : Z → Z → rng → Z * rng;
}.

(** What the library promises of the draws: [uniform(0, 5)] lies between
    0 and 5 minutes, [randint(a, b)] between [a] and [b]. *)
Definition jitter_max : Z := 5 * Datetime.us_per_minute.

Record RandomSourceLaws (R : RandomSource) : Prop := {
  jitter_range : ∀ g, 0 ≤ (jitter R g).1 ≤ jitter_max;
  randint_range : ∀ a b g, a ≤ b → a ≤ (randint R a b g).1 ≤ b;
}.

(** ** Computations: a state over the generator, with exceptions *)

Definition M (R : RandomSource) (A : Type) : Type :=
  rng R → result (A * rng R).

Definition ret {R A} (a : A) : M R A := λ g, Ok (a, g).

Definition bind {R A B} (c : M R A) (k : A → M R B) : M R B :=
  λ g, match c g with
       | Ok (a, g') => k a g'
       | Raise e => Raise e
       end.

Definition lift {R A} (r : result A) : M R A :=
  λ g, match r with
       | Ok a => Ok (a, g)
       | Raise e => Raise e
       end.

Definition draw {R A} (f : rng R → A * rng R) : M R A := λ g, Ok (f g).

Notation "'let*' x := c 'in' k" := (bind c (λ x, k))
  (at level 10, x pattern, c at level 100, k at level 200).

(** ** Vehicle identifiers *)

(** The operations of a Python value used as a vehicle identifier:
    equality and hashing (a key of [lcv_availability]), the order that
    [sorted] uses, and the truth value that [if best_lcv:] tests. *)
Class LcvId (lcv : Type) `{Countable lcv} := {
  lcv_le : relation lcv;
  lcv_le_dec :: RelDecision lcv_le;
  lcv_le_po :: PartialOrder lcv_le;
  lcv_le_total :: Total lcv_le;
  truthy : lcv → bool;
}.

(** An [int] is false exactly when it is 0. *)
#[global] Instance Z_LcvId : LcvId Z := {|
  lcv_le := Z.le;
  truthy := λ n, negb (n =? 0);
|}.

(** A [str] is false exactly when it is empty; strings compare
    lexicographically. *)
#[global] Instance string_LcvId : LcvId string := {|
  lcv_le := String.le;
  truthy := λ s, negb (String.eqb s "");
|}.

(** ** Numbers and their formatting *)

(** [int(x)] truncates toward zero. *)
Definition py_int (x : Q) : Z := Qnum x ÷ Z.pos (Qden x).

(** The character of a decimal digit [d], for [0 ≤ d ≤ 9]. *)
Definition digit (d : Z) : ascii := ascii_of_nat (48 + Z.to_nat d).

(** [str(n)] for an integer [n ≥ 0]. *)
Definition decimal (n : Z) : string :=
  NilZero.string_of_uint (N.to_uint (Z.to_N n)).

(** A field printed on two digits ([%m], [%d], [%H], [%M], [%S] and the
    two decimals of [.2f]); meant for [0 ≤ n ≤ 99]. *)
Definition two_digits (n : Z) : string :=
  String (digit (n / 10)) (String (digit (n mod 10)) "").

(** The integer nearest to [num / den], ties going to the even one: the
    rounding of a correctly rounded float format. *)
Definition round_half_even (num : Z) (den : positive) : Z :=
  let fl := num / Z.pos den in
  let r := num mod Z.pos den in
  match 2 * r ?= Z.pos den with
  | Lt => fl
  | Gt => fl + 1
  | Eq => if Z.even fl then fl else fl + 1
  end.

(** [f"{x:.2f}"]: the sign of a negative value, the integer part, a
    point, two decimals. *)
Definition format_2f (x : Q) : string :=
  let n := round_half_even (Z.abs (Qnum x) * 100) (Qden x) in
  let sign : string := if Qnum x <? 0 then "-" else "" in
  sign +:+ decimal (n / 100) +:+ "." +:+ two_digits (n mod 100).

(** ** The calendar and [strftime] *)

Module Calendar.

Definition DAYS_IN_MONTH : list Z :=
  [-1; 31; 28; 31; 30; 31; 30; 31; 31; 30; 31; 30; 31].

Definition DAYS_BEFORE_MONTH : list Z :=
  [-1; 0; 31; 59; 90; 120; 151; 181; 212; 243; 273; 304; 334].

Definition table (t : list Z) (i : Z) : Z := nth (Z.to_nat i) t 0.

Definition DI400Y : Z := 146097.
Definition DI100Y : Z := 36524.
Definition DI4Y : Z := 1461.

Definition b2z (b : bool) : Z := if b then 1 else 0.

(** The month and the day of the month of the day [n] of a year, the
    first day of the year being day 0. *)
Definition month_day (n : Z) (leapyear : bool) : Z * Z :=
  let month := Z.shiftr (n + 50) 5 in
  let preceding :=
    table DAYS_BEFORE_MONTH month + b2z ((2 <? month) && leapyear) in
  if n <? preceding then
    let month := month - 1 in
    let preceding :=
      preceding - (table DAYS_IN_MONTH month
                   + b2z ((month =? 2) && leapyear)) in
    (month, n - preceding + 1)
  else (month, n - preceding + 1).

(** The year, month and day of the day of ordinal [n] (the first day of
    year 1 has ordinal 1), as the datetime module computes them. *)
Definition ord2ymd (n : Z) : Z * Z * Z :=
  let n := n - 1 in
  let n400 := n / DI400Y in
  let n := n mod DI400Y in
  let year := n400 * 400 + 1 in
  let n100 := n / DI100Y in
  let n := n mod DI100Y in
  let n4 := n / DI4Y in
  let n := n mod DI4Y in
  let n1 := n / 365 in
  let n := n mod 365 in
  let year := year + n100 * 100 + n4 * 4 + n1 in
  if (n1 =? 4) || (n100 =? 4) then (year - 1, 12, 31)
  else
    let leapyear := (n1 =? 3) && (negb (n4 =? 24) || (n100 =? 3)) in
    let '(month, day) := month_day n leapyear in
    (year, month, day).

Record fields : Set := {
  year : Z; month : Z; day : Z; hour : Z; minute : Z; second : Z;
}.

(** The fields of the datetime [t]. *)
Definition fields_of (t : Z) : fields :=
  let '(y, m, d) := ord2ymd (t / Datetime.us_per_day + 1) in
  let r := t mod Datetime.us_per_day in
  {| year := y; month := m; day := d;
     hour := r / Datetime.us_per_hour;
     minute := r mod Datetime.us_per_hour / Datetime.us_per_minute;
     second := r mod Datetime.us_per_minute / Datetime.us_per_second |}.

(** [-%m-%d %H:%M:%S]: the fields that are printed on two digits. *)
Definition render_rest (f : fields) : string :=
  "-" +:+ two_digits (month f) +:+ "-" +:+
  two_digits (day f) +:+ " " +:+ two_digits (hour f) +:+ ":" +:+
  two_digits (minute f) +:+ ":" +:+ two_digits (second f).

(** [%Y-%m-%d %H:%M:%S].  [strftime] hands the format to the C library,
    which prints [%Y] as the year in decimal, without padding: the year
    999 is printed on three digits. *)
Definition render (f : fields) : string :=
  decimal (year f) +:+ render_rest f.

End Calendar.

(** [t.strftime('%Y-%m-%d %H:%M:%S')] *)
Definition strftime (t : Z) : string :=
  Calendar.render (Calendar.fields_of t).

(** ** The shape of the formatted values *)

(** The value of a decimal digit character. *)
Definition digit_value (c : ascii) : option Z :=
  let n := Z.of_nat (nat_of_ascii c) in
  if (48 <=? n) && (n <=? 57) then Some (n - 48) else None.

Definition is_digit (c : ascii) : bool :=
  match digit_value c with Some _ => true | None => false end.

(** Two digits that read as a number between [lo] and [hi]. *)
Definition field_in (lo hi : Z) (c1 c2 : ascii) : bool :=
  match digit_value c1, digit_value c2 with
  | Some d1, Some d2 => (lo <=? 10 * d1 + d2) && (10 * d1 + d2 <=? hi)
  | _, _ => false
  end.

(** [-MM-DD HH:MM:SS]: fifteen characters, zero-padded fields, a month
    from 01 to 12, a day from 01 to 31, an hour from 00 to 23, minutes
    and seconds from 00 to 59, and nothing after the seconds. *)
Definition timestamp_tail (cs : list ascii) : bool :=
  match cs with
  | [c1; m1; m2; c2; d1; d2; c3; h1; h2; c4; n1; n2; c5; s1; s2] =>
      Ascii.eqb c1 "-" && field_in 1 12 m1 m2
      && Ascii.eqb c2 "-" && field_in 1 31 d1 d2
      && Ascii.eqb c3 " " && field_in 0 23 h1 h2
      && Ascii.eqb c4 ":" && field_in 0 59 n1 n2
      && Ascii.eqb c5 ":" && field_in 0 59 s1 s2
  | _ => false
  end.

(** [YYYY-MM-DD HH:MM:SS]: nineteen characters, a year of four digits and
    the fifteen characters of [timestamp_tail]. *)
Definition timestamp_format (s : string) : bool :=
  match list_ascii_of_string s with
  | y1 :: y2 :: y3 :: y4 :: cs =>
      is_digit y1 && is_digit y2 && is_digit y3 && is_digit y4
      && timestamp_tail cs
  | _ => false
  end.

(** A year as [%Y] prints it: one to four digits, the first not a zero. *)
Definition printed_year (ys : list ascii) : bool :=
  match ys with
  | [] => false
  | y :: _ =>
      negb (Ascii.eqb y "0") && forallb is_digit ys
      && bool_decide (length ys ≤ 4)%nat
  end.

(** [Y-MM-DD HH:MM:SS] with the year as [%Y] prints it: the last fifteen
    characters are those of [timestamp_tail], what comes before them is
    the year. *)
Definition printed_timestamp_format (s : string) : bool :=
  let cs := list_ascii_of_string s in
  let n := (length cs - 15)%nat in
  printed_year (take n cs) && timestamp_tail (drop n cs).

(** A decimal number with exactly two decimals: an optional minus sign,
    one digit or more, a point, two digits. *)
Definition two_decimal_chars (cs : list ascii) : bool :=
  let body :=
    match cs with
    | c :: r => if Ascii.eqb c "-" then r else cs
    | [] => cs
    end in
  match reverse body with
  | d2 :: d1 :: point :: int_rev =>
      is_digit d2 && is_digit d1 && Ascii.eqb point "."
      && negb (bool_decide (int_rev = [])) && forallb is_digit int_rev
  | _ => false
  end.

Definition two_decimal_format (s : string) : bool :=
  two_decimal_chars (list_ascii_of_string s).

(** The day [n] of a year has a month from 1 to 12 and a day of the month
    from 1 to 31. *)
Definition month_day_ok (leapyear : bool) (n : Z) : bool :=
  let '(m, d) := Calendar.month_day n leapyear in
  (1 <=? m) && (m <=? 12) && (1 <=? d) && (d <=? 31).

(** The fields of a datetime are those of a date and of a time of day. *)
Definition fields_ok (f : Calendar.fields) : Prop :=
  1 ≤ Calendar.year f ≤ 9999 ∧ 1 ≤ Calendar.month f ≤ 12 ∧
  1 ≤ Calendar.day f ≤ 31 ∧ 0 ≤ Calendar.hour f ≤ 23 ∧
  0 ≤ Calendar.minute f ≤ 59 ∧ 0 ≤ Calendar.second f ≤ 59.

(** ** Requests, assignments and the returned structure *)

(** A row of the request frame, with the columns the computation reads. *)
Record request : Type := {
  request_id : string;
  create_date : Z;
  route_id : string;
  distance : Q;
  duration : Q;
}.

(** [Series.unique()]: the distinct values in order of first appearance. *)
Fixpoint unique_from {A} `{EqDecision A} (seen l : list A) : list A :=
  match l with
  | [] => []
  | x :: l' =>
      if decide (x ∈ seen) then unique_from seen l'
      else x :: unique_from (x :: seen) l'
  end.

Definition unique {A} `{EqDecision A} (l : list A) : list A :=
  unique_from [] l.

(** A loop [for x in l: acc = f(acc, x)] whose body may draw or raise. *)
Fixpoint for_each {R A B} (f : B → A → M R B) (acc : B) (l : list A)
  : M R B :=
  match l with
  | [] => ret acc
  | x :: l' => let* acc' := f acc x in for_each f acc' l'
  end.

Section Core.

Context {lcv : Type} `{LcvId lcv}.
Context (R : RandomSource).

(** An entry of [final_schedule]. *)
Record assignment : Type := {
  request_of : request;
  assigned_lcv : lcv;
  start_time : Z;
  completion_time : Z;
}.

Record schedule_entry : Type := {
  Request_ID : string;
  Assigned_LCV_ID : lcv;
  Historical_Route_ID : string;
  Historical_Distance_km : string;
  Historical_Duration_min : string;
  Start_Time : string;
  Completion_Time : string;
}.

Record stages : Type := {
  Enters_MGS : string;
  Starts_Filling : string;
  Filled : string;
  Enters_DBS : string;
  Starts_Emptying : string;
  Emptied : string;
}.

Record timeline_entry : Type := {
  timeline_Request_ID : string;
  LCV_ID : lcv;
  Stages : stages;
}.

Record results : Type := {
  optimal_schedule : list schedule_entry;
  simulation_timeline : list timeline_entry;
}.

(** *** The fleet and the tracker (lines 100-101) *)

(** [sorted(l)] *)
Definition sorted (l : list lcv) : list lcv := merge_sort lcv_le l.

(** [sorted(df['lcv_id'].unique().tolist())] *)
Definition fleet (lcv_column : list lcv) : list lcv :=
  sorted (unique lcv_column).

(** [{lcv: datetime.combine(start_date, datetime.min.time())
      for lcv in all_lcvs}] *)
Definition initial_availability (all_lcvs : list lcv) (start_date : Z)
  : gmap lcv Z :=
  list_to_map ((λ l, (l, Datetime.combine_midnight start_date)) <$> all_lcvs).

(** [d[k]] *)
Definition getitem (d : gmap lcv Z) (k : lcv) : result Z :=
  match d !! k with
  | Some v => Ok v
  | None => Raise KeyError
  end.

(** *** The choice of a vehicle (lines 105-120) *)

(** The variables of the scan; the three [best_*] variables are assigned
    together, so they are one optional triple (none: all three [None]). *)
Record scan : Type := {
  earliest_stochastic_completion_time : Z;
  best : option (lcv * Z * Z);
}.

Definition scan_start : scan :=
  {| earliest_stochastic_completion_time := Datetime.datetime_max;
     best := None |}.

(** The body of [for lcv_id in all_lcvs] (lines 111-120). *)
Definition try_lcv (lcv_availability : gmap lcv Z) (req : request)
    (s : scan) (lcv_id : lcv) : M R scan :=
  let* available := lift (getitem lcv_availability lcv_id) in
  let current_lcv_start_time := Z.max available (create_date req) in
  let route_duration := py_int (duration req) in
  let* delta := lift (Datetime.timedelta_minutes route_duration) in
  let* current_lcv_completion_time :=
    lift (Datetime.add current_lcv_start_time delta) in
  let* noise := draw (jitter R) in
  let* stochastic_completion_time :=
    lift (Datetime.add current_lcv_completion_time noise) in
  ret (if stochastic_completion_time <? earliest_stochastic_completion_time s
       then {| earliest_stochastic_completion_time :=
                 stochastic_completion_time;
               best := Some (lcv_id, current_lcv_start_time,
                             current_lcv_completion_time) |}
       else s).

Definition select_lcv (all_lcvs : list lcv) (lcv_availability : gmap lcv Z)
    (req : request) : M R scan :=
  for_each (try_lcv lcv_availability req) scan_start all_lcvs.

(** *** One request (lines 104-129) *)

(** [if best_lcv:] then record the assignment and move the tracker. *)
Definition record_assignment (req : request)
    (st : gmap lcv Z * list assignment) (s : scan)
  : gmap lcv Z * list assignment :=
  match best s with
  | Some (best_lcv, best_start_time, best_completion_time) =>
      if truthy best_lcv then
        (<[best_lcv := best_completion_time]> st.1,
         st.2 ++ [ {| request_of := req;
                      assigned_lcv := best_lcv;
                      start_time := best_start_time;
                      completion_time := best_completion_time |} ])
      else st
  | None => st
  end.

Definition assign_request (all_lcvs : list lcv)
    (st : gmap lcv Z * list assignment) (req : request)
  : M R (gmap lcv Z * list assignment) :=
  let* s := select_lcv all_lcvs st.1 req in
  ret (record_assignment req st s).

(** The loop [for req in requests_to_process_sorted]: the final tracker
    and [final_schedule]. *)
Definition vrp_heuristic (all_lcvs : list lcv) (start_date : Z)
    (requests_to_process_sorted : list request)
  : M R (gmap lcv Z * list assignment) :=
  for_each (assign_request all_lcvs)
           (initial_availability all_lcvs start_date, [])
           requests_to_process_sorted.

(** *** The six stages and the formatting (lines 137-173) *)

Record stage_times : Type := {
  stage1_time : Z;
  stage2_time : Z;
  stage3_time : Z;
  stage4_time : Z;
  stage5_time : Z;
  stage6_time : Z;
}.

(** [t + timedelta(minutes=n)] *)
Definition plus_minutes (t n : Z) : result Z :=
  match Datetime.timedelta_minutes n with
  | Ok d => Datetime.add t d
  | Raise e => Raise e
  end.

(** Lines 155-160. *)
Definition simulate_stages (a : assignment) : M R stage_times :=
  let route_duration := py_int (duration (request_of a)) in
  let stage1_time := start_time a in
  let* load_wait := draw (randint R 4 6) in
  let* stage2_time := lift (plus_minutes stage1_time load_wait) in
  let* load := draw (randint R 28 32) in
  let* stage3_time := lift (plus_minutes stage2_time load) in
  let* stage4_time := lift (plus_minutes stage3_time route_duration) in
  let* unload_wait := draw (randint R 4 6) in
  let* stage5_time := lift (plus_minutes stage4_time unload_wait) in
  let* unload := draw (randint R 28 32) in
  let* stage6_time := lift (plus_minutes stage5_time unload) in
  ret {| stage1_time := stage1_time; stage2_time := stage2_time;
         stage3_time := stage3_time; stage4_time := stage4_time;
         stage5_time := stage5_time; stage6_time := stage6_time |}.

(** Lines 144-152. *)
Definition format_schedule_entry (a : assignment) : schedule_entry :=
  let req := request_of a in
  {| Request_ID := request_id req;
     Assigned_LCV_ID := assigned_lcv a;
     Historical_Route_ID := route_id req;
     Historical_Distance_km := format_2f (distance req);
     Historical_Duration_min := format_2f (duration req);
     Start_Time := strftime (start_time a);
     Completion_Time := strftime (completion_time a) |}.

(** Lines 162-173. *)
Definition format_timeline_entry (a : assignment) (t : stage_times)
  : timeline_entry :=
  {| timeline_Request_ID := request_id (request_of a);
     LCV_ID := assigned_lcv a;
     Stages := {| Enters_MGS := strftime (stage1_time t);
                  Starts_Filling := strftime (stage2_time t);
                  Filled := strftime (stage3_time t);
                  Enters_DBS := strftime (stage4_time t);
                  Starts_Emptying := strftime (stage5_time t);
                  Emptied := strftime (stage6_time t) |} |}.

(** The body of [for assignment in final_schedule]. *)
Definition simulate_assignment (res : results) (a : assignment)
  : M R results :=
  let entry := format_schedule_entry a in
  let* t := simulate_stages a in
  ret {| optimal_schedule := optimal_schedule res ++ [entry];
         simulation_timeline :=
           simulation_timeline res ++ [format_timeline_entry a t] |}.

Definition simulation (final_schedule : list assignment) : M R results :=
  for_each simulate_assignment
           {| optimal_schedule := []; simulation_timeline := [] |}
           final_schedule.

(** *** The whole computation (lines 97-175) *)

(** [sort_values] is the sort of the request frame by [create_date]
    (line 97); [lcv_column] is the column [df['lcv_id']]. *)
Definition run_lcv_optimization
    (sort_values : list request → list request)
    (lcv_column : list lcv) (start_date : Z)
    (requests_to_process : list request) : M R results :=
  let requests_to_process_sorted := sort_values requests_to_process in
  let all_lcvs := fleet lcv_column in
  let* st := vrp_heuristic all_lcvs start_date requests_to_process_sorted in
  simulation st.2.

End Core.

Arguments assignment lcv : clear implicits.
Arguments schedule_entry lcv : clear implicits.
Arguments timeline_entry lcv : clear implicits.
Arguments results lcv : clear implicits.
Arguments scan lcv : clear implicits.

(** ** A scripted random source *)

(** A generator that replays a list of raw draws, reduced into the range
    of each call; an exhausted script yields 0. *)
Definition scripted : RandomSource := {|
  rng := list Z;
  jitter := λ g, (hd 0 g mod (jitter_max + 1), tl g);
  randint := λ a b g, (a + hd 0 g mod (b - a + 1), tl g);
|}.

(** The order of two rows by [create_date]. *)
Definition by_create_date (r1 r2 : request) : Prop :=
  create_date r1 ≤ create_date r2.

#[global] Instance by_create_date_dec : RelDecision by_create_date.
Proof. intros r1 r2. unfold by_create_date. apply _. Defined.

(** A stable sort of the rows by [create_date], by insertion: a row goes
    before the first row that is not earlier than it, so behind the rows
    of the same [create_date] that came before it in the frame.  It is
    the sort of the examples. *)
Fixpoint insert_by_create_date (r : request) (l : list request)
  : list request :=
  match l with
  | [] => [r]
  | r' :: l' =>
      if decide (by_create_date r r') then r :: l
      else r' :: insert_by_create_date r l'
  end.

Definition stable_sort_values (l : list request) : list request :=
  foldr insert_by_create_date [] l.

(** ** The candidates of a request, in the words of the specification *)

Definition candidate_start (available : Z) (req : request) : Z :=
  Z.max available (create_date req).

Definition candidate_completion (available : Z) (req : request) : Z :=
  candidate_start available req
  + py_int (duration req) * Datetime.us_per_minute.

Definition scored_completion (available : Z) (req : request) (noise : Z)
  : Z :=
  candidate_completion available req + noise.

(** The jitter of the [n]-th vehicle examined, the generator being in
    state [g] when the scan starts: one draw per vehicle. *)
Fixpoint nth_jitter (R : RandomSource) (n : nat) (g : rng R) : Z :=
  match n with
  | O => (jitter R g).1
  | S n' => nth_jitter R n' (jitter R g).2
  end.

(** The vehicle [l] has the smallest score of the vehicles [all_lcvs],
    and is the first of them to have it: the tracker being [av] and the
    generator in state [g] when the scan of [req] starts, the score of [l]
    is at most every score and strictly below the score of every vehicle
    examined before [l]. *)
Definition first_of_minimal_score {lcv} `{Countable lcv}
    (R : RandomSource) (all_lcvs : list lcv) (av : gmap lcv Z)
    (req : request) (g : rng R) (l : lcv) : Prop :=
  ∃ i t,
    all_lcvs !! i = Some l ∧ av !! l = Some t ∧
    ∀ j l' t', all_lcvs !! j = Some l' → av !! l' = Some t' →
      scored_completion t req (nth_jitter R i g)
        ≤ scored_completion t' req (nth_jitter R j g)
      ∧ ((j < i)%nat →
         scored_completion t req (nth_jitter R i g)
           < scored_completion t' req (nth_jitter R j g)).

(** The completion time of the last assignment of [sched] routed to the
    vehicle [l], if there is one. *)
Definition last_completion {lcv} `{EqDecision lcv} (l : lcv)
    (sched : list (assignment lcv)) : option Z :=
  last (completion_time <$> filter (λ a, assigned_lcv a = l) sched).

(** The tracker of every vehicle of the fleet is the completion time of
    the last assignment routed to it, or midnight of the day. *)
Definition tracks_last_completion {lcv} `{Countable lcv}
    (all_lcvs : list lcv) (start_date : Z)
    (st : gmap lcv Z * list (assignment lcv)) : Prop :=
  ∀ l, l ∈ all_lcvs →
    st.1 !! l = Some (default (Datetime.combine_midnight start_date)
                              (last_completion l st.2)).

(** The assignment [a], the [k]-th of the schedule of a run, is made from
    the tracker of its moment: after the requests [reqs1] that precede its
    own, the tracker being [av1], its start is the larger of the
    availability of its vehicle and of the creation time of its request,
    its completion is the start plus the truncated duration in minutes,
    and the tracker of the vehicle becomes that completion. *)
Definition recorded_from_tracker {lcv} `{LcvId lcv} (R : RandomSource)
    (all_lcvs : list lcv) (start_date : Z) (reqs : list request)
    (g : rng R) (k : nat) (a : assignment lcv) : Prop :=
  ∃ reqs1 reqs2 av1 sched1 g1 g2 t,
    reqs = reqs1 ++ request_of a :: reqs2 ∧
    vrp_heuristic R all_lcvs start_date reqs1 g = Ok ((av1, sched1), g1) ∧
    length sched1 = k ∧
    av1 !! assigned_lcv a = Some t ∧
    start_time a = Z.max t (create_date (request_of a)) ∧
    completion_time a
    = start_time a
      + py_int (duration (request_of a)) * Datetime.us_per_minute ∧
    vrp_heuristic R all_lcvs start_date (reqs1 ++ [request_of a]) g
    = Ok ((<[assigned_lcv a := completion_time a]> av1, sched1 ++ [a]), g2).

(** From [t1] to [t2] there is a whole number of minutes, between [lo]
    and [hi]. *)
Definition minutes_between (lo hi : Z) (t1 t2 : Z) : Prop :=
  ∃ n, lo ≤ n ≤ hi ∧ t2 - t1 = n * Datetime.us_per_minute.

(** The stage times [t] of the assignment [a] are chained as the
    specification says: the first is the start of the assignment, the gaps
    are whole minutes within the bounds of the draws, the fourth stage
    follows the third by the truncated duration, and the times do not
    decrease when the duration is not negative. *)
Definition stage_gaps {lcv} (a : assignment lcv) (t : stage_times) : Prop :=
  stage1_time t = start_time a ∧
  minutes_between 4 6 (stage1_time t) (stage2_time t) ∧
  minutes_between 28 32 (stage2_time t) (stage3_time t) ∧
  stage4_time t - stage3_time t
  = py_int (duration (request_of a)) * Datetime.us_per_minute ∧
  minutes_between 4 6 (stage4_time t) (stage5_time t) ∧
  minutes_between 28 32 (stage5_time t) (stage6_time t) ∧
  (Qle 0 (duration (request_of a)) →
   stage1_time t ≤ stage2_time t ≤ stage3_time t ∧
   stage3_time t ≤ stage4_time t ≤ stage5_time t ∧
   stage5_time t ≤ stage6_time t).

(** The entry [e] of the timeline is the entry of the assignment [a]:
    it carries the request and the vehicle of [a], and its six fields are
    the printings of six times chained as [stage_gaps] says, each field
    that of its own stage. *)
Definition timeline_entry_of {lcv} (a : assignment lcv)
    (e : timeline_entry lcv) : Prop :=
  timeline_Request_ID e = request_id (request_of a) ∧
  LCV_ID e = assigned_lcv a ∧
  ∃ t, stage_gaps a t ∧
       Enters_MGS (Stages e) = strftime (stage1_time t) ∧
       Starts_Filling (Stages e) = strftime (stage2_time t) ∧
       Filled (Stages e) = strftime (stage3_time t) ∧
       Enters_DBS (Stages e) = strftime (stage4_time t) ∧
       Starts_Emptying (Stages e) = strftime (stage5_time t) ∧
       Emptied (Stages e) = strftime (stage6_time t).

(** The timeline [tl] has one entry for each assignment of the schedule,
    in the order of the schedule. *)
Definition timeline_of_schedule {lcv} (sched : list (assignment lcv))
    (tl : list (timeline_entry lcv)) : Prop :=
  Forall2 timeline_entry_of sched tl.

(** The two arrays have the same length, and entries of the same rank
    carry the same request, the same vehicle and the same start. *)
Definition aligned {lcv} (res : results lcv) : Prop :=
  length (optimal_schedule res) = length (simulation_timeline res) ∧
  ∀ i e t,
    optimal_schedule res !! i = Some e →
    simulation_timeline res !! i = Some t →
    Request_ID e = timeline_Request_ID t ∧
    Assigned_LCV_ID e = LCV_ID t ∧
    Enters_MGS (Stages t) = Start_Time e.

(** ** Two runs *)

(** Two generators, possibly of different kinds, give the same draws from
    states related by [sim], and their next states are related again. *)
Definition same_draws (R1 R2 : RandomSource)
    (sim : rng R1 → rng R2 → Prop) : Prop :=
  ∀ g1 g2, sim g1 g2 →
    ((jitter R1 g1).1 = (jitter R2 g2).1
     ∧ sim (jitter R1 g1).2 (jitter R2 g2).2)
    ∧ ∀ a b, (randint R1 a b g1).1 = (randint R2 a b g2).1
             ∧ sim (randint R1 a b g1).2 (randint R2 a b g2).2.

(** Two outcomes are the same: the same value with related generators,
    or the same exception. *)
Definition same_outcome {R1 R2 A} (sim : rng R1 → rng R2 → Prop)
    (o1 : result (A * rng R1)) (o2 : result (A * rng R2)) : Prop :=
  match o1, o2 with
  | Ok (a1, g1), Ok (a2, g2) => a1 = a2 ∧ sim g1 g2
  | Raise e1, Raise e2 => e1 = e2
  | _, _ => False
  end.

(** Two computations have the same outcome from related generators. *)
Definition agree {R1 R2 A} (sim : rng R1 → rng R2 → Prop)
    (c1 : M R1 A) (c2 : M R2 A) : Prop :=
  ∀ g1 g2, sim g1 g2 → same_outcome sim (c1 g1) (c2 g2).

(** ** The sort of the request frame *)

(** What [DataFrame.sort_values(by='create_date')] promises with any of
    its algorithms: the rows come out in ascending order of the key, and
    they are the rows that went in.  (The order it gives to rows of equal
    key is not part of the promise for the default algorithm.) *)
Definition sorts_by_create_date (sort_values : list request → list request)
  : Prop :=
  ∀ l, sort_values l ≡ₚ l ∧ Sorted by_create_date (sort_values l).

(** ** The shape of the entries *)

(** The shape of a schedule entry and of a timeline entry, for a shape
    [stamp] of the timestamps. *)
Definition schedule_entry_format {lcv} (stamp : string → bool)
    (e : schedule_entry lcv) : bool :=
  two_decimal_format (Historical_Distance_km e)
  && two_decimal_format (Historical_Duration_min e)
  && stamp (Start_Time e)
  && stamp (Completion_Time e).

Definition timeline_entry_format {lcv} (stamp : string → bool)
    (e : timeline_entry lcv) : bool :=
  stamp (Enters_MGS (Stages e))
  && stamp (Starts_Filling (Stages e))
  && stamp (Filled (Stages e))
  && stamp (Enters_DBS (Stages e))
  && stamp (Starts_Emptying (Stages e))
  && stamp (Emptied (Stages e)).

(** The times of the tracker and of the schedule are datetimes. *)
Definition valid_times {lcv} `{Countable lcv}
    (st : gmap lcv Z * list (assignment lcv)) : Prop :=
  (∀ l t, st.1 !! l = Some t → Datetime.valid t) ∧
  Forall (λ a, Datetime.valid (start_time a)
               ∧ Datetime.valid (completion_time a)) st.2.

(** ** The horizon of a run *)

(** The time at which the last request would complete if one vehicle,
    free at [t], served the requests one after the other: no tracker of
    the run goes beyond it. *)
Fixpoint horizon (t : Z) (reqs : list request) : Z :=
  match reqs with
  | [] => t
  | r :: reqs' =>
      horizon (Z.max t (create_date r)
               + py_int (duration r) * Datetime.us_per_minute) reqs'
  end.

(** The longest time from the completion of a request to its last stage:
    the four draws at their upper bounds. *)
Definition stage_margin : Z := (6 + 32 + 6 + 32) * Datetime.us_per_minute.

(** The vehicles of the fleet are in the tracker with times from 0 to
    [bound], and the assignments of the schedule start at 0 or later,
    last a non-negative time and complete by [bound]. *)
Definition within_bound {lcv} `{Countable lcv} (all_lcvs : list lcv)
    (bound : Z) (st : gmap lcv Z * list (assignment lcv)) : Prop :=
  (∀ l, l ∈ all_lcvs → ∃ t, st.1 !! l = Some t ∧ 0 ≤ t ≤ bound) ∧
  Forall (λ a, 0 ≤ start_time a ∧
               0 ≤ py_int (duration (request_of a)) ∧
               start_time a
               + py_int (duration (request_of a)) * Datetime.us_per_minute
               ≤ bound) st.2.

(** ** Example data *)

(** 2021-07-30, as the number of days since 0001-01-01. *)
Definition example_day : Z := 738000.

(** A request created at [h]:[m] of the example day, lasting [dur]
    minutes. *)
Definition example_request (id : string) (h m : Z) (dur : Q) : request :=
  {| request_id := id;
     create_date := Datetime.combine_midnight example_day
                    + h * Datetime.us_per_hour + m * Datetime.us_per_minute;
     route_id := "R1";
     distance := Qmake 125 10;
     duration := dur |}.

(** The column [df['lcv_id']] of the examples and its fleet, [1; 2]. *)
Definition example_column : list Z := [2; 1; 2].

(** The tracker and the schedule before the first request. *)
Definition example_start : gmap Z Z * list (assignment Z) :=
  (initial_availability (fleet example_column) example_day, []).

(** A request created at 08:00 that lasts 30 minutes, and its assignment
    to a vehicle free since midnight. *)
Definition request_a : request := example_request "a" 8 0 (Qmake 30 1).

Definition assignment_a (l : Z) : assignment Z :=
  {| request_of := request_a;
     assigned_lcv := l;
     start_time := create_date request_a;
     completion_time :=
       create_date request_a + 30 * Datetime.us_per_minute |}.

(** The tracker and the schedule once [request_a] is assigned to 1. *)
Definition example_after_a : gmap Z Z * list (assignment Z) :=
  (<[1 := completion_time (assignment_a 1)]> example_start.1,
   [assignment_a 1]).

(** A second request, created at 08:10 and lasting 20 minutes, and its
    assignment to a vehicle free since midnight. *)
Definition request_b : request := example_request "b" 8 10 (Qmake 20 1).

Definition assignment_b (l : Z) : assignment Z :=
  {| request_of := request_b;
     assigned_lcv := l;
     start_time := create_date request_b;
     completion_time :=
       create_date request_b + 20 * Datetime.us_per_minute |}.

(** The tracker and the schedule once [request_b] is assigned to 2. *)
Definition example_after_b : gmap Z Z * list (assignment Z) :=
  (<[2 := completion_time (assignment_b 2)]> example_after_a.1,
   [assignment_a 1; assignment_b 2]).

(** The script of a run of the two requests: two jitters for each
    request, then four stage draws for each assignment. *)
Definition example_script : list Z := [7; 7; 3; 9; 0; 1; 2; 3; 4; 5; 6; 7].

(** What the computation returns for the two requests, given in the order
    [request_b], [request_a]. *)
Definition example_results : results Z :=
  Eval vm_compute in
    match run_lcv_optimization scripted stable_sort_values example_column
            example_day [request_b; request_a] example_script with
    | Ok (res, _) => res
    | Raise _ => {| optimal_schedule := []; simulation_timeline := [] |}
    end.

(** 0999-01-01, as the number of days since 0001-01-01, a request created
    at 08:00 of that day, and what the computation returns for it. *)
Definition day_in_999 : Z := 364512.

Definition request_in_999 : request :=
  {| request_id := "y";
     create_date := Datetime.combine_midnight day_in_999
                    + 8 * Datetime.us_per_hour;
     route_id := "R1";
     distance := Qmake 125 10;
     duration := Qmake 30 1 |}.

Definition results_in_999 : results Z :=
  Eval vm_compute in
    match run_lcv_optimization scripted stable_sort_values [1]
            day_in_999 [request_in_999] example_script with
    | Ok (res, _) => res
    | Raise _ => {| optimal_schedule := []; simulation_timeline := [] |}
    end.

(** Two requests created at 09:00. *)
Definition request_c : request := example_request "c" 9 0 (Qmake 20 1).
Definition request_d : request := example_request "d" 9 0 (Qmake 20 1).

(** The schedule a run returns, reduced to the request, the vehicle and
    the two times of each entry; [None] when the run raises. *)
Definition schedule_summary {lcv} {R : RandomSource}
    (o : result (results lcv * rng R))
  : option (list (string * lcv * string * string)) :=
  match o with
  | Ok (res, _) =>
      Some ((λ e, (Request_ID e, Assigned_LCV_ID e, Start_Time e,
                   Completion_Time e)) <$> optimal_schedule res)
  | Raise _ => None
  end.

(** The state in which a run leaves the generator. *)
Definition generator_after {lcv} {R : RandomSource}
    (o : result (results lcv * rng R)) : option (rng R) :=
  match o with
  | Ok (_, g) => Some g
  | Raise _ => None
  end.

(** ** The schedule of a vehicle, and the draws of a run *)

(** No vehicle is given two assignments at once: of two assignments of
    one vehicle, the later one of the schedule starts when the earlier one
    has completed. *)
Definition no_double_booking {lcv} (sched : list (assignment lcv)) : Prop :=
  ∀ i j a b,
    (i < j)%nat → sched !! i = Some a → sched !! j = Some b →
    assigned_lcv a = assigned_lcv b →
    completion_time a ≤ start_time b.

(** The tracker of the vehicle of every assignment is at the completion
    of the assignment or later, and no vehicle is booked twice at once. *)
Definition booked {lcv} `{Countable lcv}
    (st : gmap lcv Z * list (assignment lcv)) : Prop :=
  (∀ a, a ∈ st.2 →
        ∃ t, st.1 !! assigned_lcv a = Some t ∧ completion_time a ≤ t) ∧
  no_double_booking st.2.

(** An assignment starts when its request exists, lasts the truncated
    duration of the request, and is made to a vehicle of the fleet whose
    identifier is a true value. *)
Definition well_formed_assignment {lcv} `{LcvId lcv} (all_lcvs : list lcv)
    (a : assignment lcv) : Prop :=
  create_date (request_of a) ≤ start_time a ∧
  completion_time a
  = start_time a
    + py_int (duration (request_of a)) * Datetime.us_per_minute ∧
  assigned_lcv a ∈ all_lcvs ∧
  truthy (assigned_lcv a) = true.

(** The generator after [n] draws of a jitter. *)
Fixpoint after_jitters (R : RandomSource) (n : nat) (g : rng R) : rng R :=
  match n with
  | O => g
  | S n' => after_jitters R n' (jitter R g).2
  end.

(** The generator after the four draws of the stages of one assignment,
    and after those of [n] assignments. *)
Definition after_stage_draws (R : RandomSource) (g : rng R) : rng R :=
  (randint R 28 32
     (randint R 4 6 (randint R 28 32 (randint R 4 6 g).2).2).2).2.

Fixpoint after_stages (R : RandomSource) (n : nat) (g : rng R) : rng R :=
  match n with
  | O => g
  | S n' => after_stages R n' (after_stage_draws R g)
  end.

(** The stages of an assignment against its two recorded times: the leg
    from stage 3 to stage 4 lasts as long as the assignment, and the last
    stage comes 64 to 76 minutes after the recorded completion. *)
Definition stages_against_schedule {lcv} (a : assignment lcv)
    (t : stage_times) : Prop :=
  stage4_time t - stage3_time t = completion_time a - start_time a ∧
  64 * Datetime.us_per_minute ≤ stage6_time t - completion_time a
  ≤ 76 * Datetime.us_per_minute.

(** ** The endpoint (lines 65-97) *)

(** The body of the request, as the model [OptimizationRequest] gives
    it. *)
Record OptimizationRequest : Type := {
  selected_date : string;
  selected_mgs : string;
  selected_request_ids : list string;
}.

(** A row of the frame that [load_and_preprocess_data] returns: the site
    [mgs] (a string), the vehicle [lcv_id] and the columns of the request.
    The frame is the list of its rows, in the order of the file. *)
Record row (lcv : Type) : Type := {
  mgs : string;
  lcv_id : lcv;
  request_columns : request;
}.
Arguments mgs {lcv} r.
Arguments lcv_id {lcv} r.
Arguments request_columns {lcv} r.

(** How a call of the endpoint ends: with the returned structure, with an
    [HTTPException] that the code raises, or with an exception of the
    computation that the code does not catch. *)
Inductive outcome (A : Type) : Type :=
  | Returned (a : A)
  | HTTPException (status_code : Z) (detail : string)
  | Unhandled (e : exn).
Arguments Returned {A} a.
Arguments HTTPException {A} status_code detail.
Arguments Unhandled {A} e.

(** [t.date()], as the number of days since 0001-01-01. *)
Definition date_of (t : Z) : Z := t / Datetime.us_per_day.

Section Endpoint.

Context {lcv : Type} `{LcvId lcv}.

(** [df[df['create_date'].dt.date == start_date]] *)
Definition filtered_by_date (df : list (row lcv)) (start_date : Z)
  : list (row lcv) :=
  filter (λ r, date_of (create_date (request_columns r)) = start_date) df.

(** [filtered_by_date[filtered_by_date['mgs'] == request.selected_mgs]] *)
Definition filtered_by_mgs_and_date (df : list (row lcv)) (start_date : Z)
    (request : OptimizationRequest) : list (row lcv) :=
  filter (λ r, mgs r = selected_mgs request) (filtered_by_date df start_date).

(** [drop_duplicates(subset=['request_id'])]: the first row of each
    identifier, in the order of the frame. *)
Fixpoint drop_duplicates_from (seen : list string) (rows : list (row lcv))
  : list (row lcv) :=
  match rows with
  | [] => []
  | r :: rest =>
      if decide (request_id (request_columns r) ∈ seen)
      then drop_duplicates_from seen rest
      else r :: drop_duplicates_from
                  (request_id (request_columns r) :: seen) rest
  end.

Definition drop_duplicates (rows : list (row lcv)) : list (row lcv) :=
  drop_duplicates_from [] rows.

(** Lines 90-92. *)
Definition requests_to_process_df (df : list (row lcv)) (start_date : Z)
    (request : OptimizationRequest) : list (row lcv) :=
  drop_duplicates
    (filter (λ r, request_id (request_columns r)
                  ∈ selected_request_ids request)
            (filtered_by_mgs_and_date df start_date request)).

(** The endpoint [/optimize].  [loaded] is what
    [load_and_preprocess_data()] gives, the frame or the message of its
    exception; [strptime] is
    [datetime.strptime(s, "%Y-%m-%d").date()], with [None] for a
    [ValueError]. *)
Definition optimize (R : RandomSource)
    (sort_values : list request → list request)
    (strptime : string → option Z)
    (loaded : string + list (row lcv))
    (request : OptimizationRequest) (g : rng R)
  : outcome (results lcv * rng R) :=
  match loaded with
  | inl message => HTTPException 500 message
  | inr df =>
      match strptime (selected_date request) with
      | None =>
          HTTPException 400 "Invalid date format. Please use 'YYYY-MM-DD'."
      | Some start_date =>
          match filtered_by_date df start_date with
          | [] => HTTPException 404 "No data found for the selected date."
          | _ :: _ =>
              match filtered_by_mgs_and_date df start_date request with
              | [] =>
                  HTTPException 404
                    "No data found for the selected MGS and date."
              | _ :: _ =>
                  match requests_to_process_df df start_date request with
                  | [] =>
                      HTTPException 404
                        "No requests found with the provided IDs."
                  | requests_to_process =>
                      match run_lcv_optimization R sort_values
                              (lcv_id <$> df) start_date
                              (request_columns <$> requests_to_process) g
                      with
                      | Ok (res, g') => Returned (res, g')
                      | Raise e => Unhandled e
                      end
                  end
              end
          end
      end
  end.

(** A row of the frame answers the request: it has the date, the site
    and one of the identifiers of the request. *)
Definition answers (start_date : Z) (request : OptimizationRequest)
    (r : row lcv) : Prop :=
  date_of (create_date (request_columns r)) = start_date ∧
  mgs r = selected_mgs request ∧
  request_id (request_columns r) ∈ selected_request_ids request.

End Endpoint.

(** ** The names of the columns ([load_and_preprocess_data]) *)

(** The loader works on the labels of the columns of the file before it
    looks at a row: it finds the spelling of each field, renames the
    columns it has found, and asks for ten of the names.  The labels are
    a list of strings, in the order of the file. *)

(** [find_column]: the first of the possible names that is a column. *)
Fixpoint find_column (columns : list string) (possible_names : list string)
  : option string :=
  match possible_names with
  | [] => None
  | name :: possible_names' =>
      if decide (name ∈ columns) then Some name
      else find_column columns possible_names'
  end.

(** The entries of the dictionary display of [rename_map], in the order
    in which they are written: the possible names and the value. *)
Definition rename_entries : list (list string * string) :=
  [ (["MGS"; "mgs"], "mgs");
    (["DBS"; "dbs"], "dbs");
    (["lcv_id"; "LCV_ID"], "lcv_id");
    (["create_date"; "Create_Date"], "create_date");
    (["update_date"; "Update_Date"], "update_date");
    (["Distance"; "distance"], "distance");
    (["Duration"; "duration"], "duration");
    (["Route_id"; "Route_ID"], "route_id");
    (["Request_id"; "Request_ID"], "request_id");
    (["Notification_id"; "Notification_ID"], "notification_id");
    (["Transaction_id"; "Transaction_ID"], "transaction_id") ].

(** A dictionary display stores its entries from the first to the last;
    an entry whose key is already there replaces the value.  The key of a
    field that has no column is [None]. *)
Definition dict_display (columns : list string)
    (entries : list (list string * string)) : gmap (option string) string :=
  foldl (λ m e, <[find_column columns e.1 := e.2]> m) ∅ entries.

(** [{k: v for k, v in rename_map.items() if k is not None}] *)
Definition without_None (m : gmap (option string) string)
  : gmap (option string) string :=
  filter (λ kv, kv.1 ≠ None) m.

Definition rename_map_of (columns : list string)
    (entries : list (list string * string)) : gmap (option string) string :=
  without_None (dict_display columns entries).

Definition rename_map (columns : list string)
  : gmap (option string) string :=
  rename_map_of columns rename_entries.

(** [df.rename(columns=rename_map)]: a label that is a key becomes the
    value, another label stays. *)
Definition rename (m : gmap (option string) string)
    (columns : list string) : list string :=
  (λ c, default c (m !! Some c)) <$> columns.

(** The names [dropna] is given as [subset]. *)
Definition dropna_subset : list string :=
  ["mgs"; "dbs"; "lcv_id"; "create_date"; "update_date"; "distance";
   "duration"; "route_id"; "request_id"; "notification_id"].

(** The labels after the renaming, as far as [dropna] (lines 25 to 48).
    [dropna] goes on when it finds every name of [subset] among the
    labels.  When a name is missing it raises, and there is no frame:
    [None].  (The exception is a [KeyError], or an [IndexError] when the
    renaming has given one label to two columns; which of the two is not
    recorded here.) *)
Definition preprocessed_columns (columns : list string)
  : option (list string) :=
  let renamed := rename (rename_map columns) columns in
  if decide (Forall (λ name, name ∈ renamed) dropna_subset)
  then Some renamed
  else None.

(** The spellings under which a field is accepted: the possible names of
    its entry, and the name the entry gives it. *)
Definition spellings (e : list string * string) : list string :=
  e.1 ++ [e.2].

(** The possible names of the entries are distinct, so are their values,
    and a value that is a possible name is one of its own entry. *)
Definition well_formed_entries (entries : list (list string * string))
  : Prop :=
  NoDup (mjoin (fst <$> entries)) ∧
  NoDup (snd <$> entries) ∧
  Forall (λ e, Forall (λ e', e'.2 ∈ e.1 → e'.2 = e.2) entries) entries.

(** The labels of a file that spells the site in two ways. *)
Definition example_columns : list string :=
  ["MGS"; "mgs"; "LCV_ID"; "Route_id"; "Route_ID"].

(** ** Example data of the endpoint *)

(** A frame of four rows: two requests of the site M1, a request of the
    site M2, and a second row for the request "a". *)
Definition example_frame : list (row Z) :=
  [ {| mgs := "M1"; lcv_id := 2; request_columns := request_b |};
    {| mgs := "M1"; lcv_id := 1; request_columns := request_a |};
    {| mgs := "M2"; lcv_id := 2; request_columns := request_c |};
    {| mgs := "M1"; lcv_id := 1;
       request_columns := example_request "a" 10 0 (Qmake 45 1) |} ].

(** A request for the day of the examples, the site M1 and three
    identifiers, one of them unknown. *)
Definition example_body : OptimizationRequest :=
  {| selected_date := "2021-07-30";
     selected_mgs := "M1";
     selected_request_ids := ["a"; "b"; "nope"] |}.

(** The same for a site that has no row. *)
Definition example_body_no_site : OptimizationRequest :=
  {| selected_date := "2021-07-30";
     selected_mgs := "M9";
     selected_request_ids := ["a"; "b"; "nope"] |}.

(** [strptime] cut down to the one string the examples give it, the day
    of the examples; it stands for [strptime] at this string only. *)
Definition example_strptime (s : string) : option Z :=
  if String.eqb s "2021-07-30" then Some example_day else None.

(** What the endpoint returns for [example_body]. *)
Definition example_response : results Z :=
  Eval vm_compute in
    match optimize scripted stable_sort_values example_strptime
            (inr example_frame) example_body example_script with
    | Returned (res, _) => res
    | _ => {| optimal_schedule := []; simulation_timeline := [] |}
    end.

(** The state in which that run leaves the generator. *)
Definition example_response_generator : list Z :=
  Eval vm_compute in
    match optimize scripted stable_sort_values example_strptime
            (inr example_frame) example_body example_script with
    | Returned (_, g) => g
    | _ => []
    end.

(** * Properties *)

(** ** Computations *)

Section Computations.

Context {R : RandomSource}.

Lemma bind_Ok {A B} (c : M R A) (k : A → M R B) g b g2 :
  bind c k g = Ok (b, g2) ↔
  ∃ a g1, c g = Ok (a, g1) ∧ k a g1 = Ok (b, g2).
Proof.
  unfold bind. split.
  - destruct (c g) as [[a g1]|e]; [eauto | discriminate].
  - intros (a & g1 & -> & Hk). exact Hk.
Qed.

Lemma ret_Ok {A} (a b : A) (g g' : rng R) :
  ret a g = Ok (b, g') ↔ b = a ∧ g' = g.
Proof. unfold ret. split; [intros [= -> ->] | intros [-> ->]]; done. Qed.

Lemma lift_Ok {A} (r : result A) (a : A) (g g' : rng R) :
  lift r g = Ok (a, g') ↔ r = Ok a ∧ g' = g.
Proof.
  unfold lift. destruct r; split; try intros [= -> ->]; try intros [[=] ->];
    subst; done.
Qed.

Lemma draw_Ok {A} (f : rng R → A * rng R) a g g' :
  draw f g = Ok (a, g') ↔ a = (f g).1 ∧ g' = (f g).2.
Proof.
  unfold draw. destruct (f g) as [x y]; simpl.
  split; [intros [= -> ->] | intros [-> ->]]; done.
Qed.

Lemma for_each_app {A B} (f : B → A → M R B) l1 l2 acc g :
  for_each f acc (l1 ++ l2) g =
  bind (for_each f acc l1) (λ mid, for_each f mid l2) g.
Proof.
  revert acc g. induction l1 as [|x l1 IH]; intros acc g; simpl.
  - reflexivity.
  - unfold bind in *. destruct (f acc x g) as [[acc' g1]|e]; [|done].
    apply IH.
Qed.

Lemma for_each_snoc {A B} (f : B → A → M R B) l x acc g r :
  for_each f acc (l ++ [x]) g = Ok r ↔
  ∃ mid g1, for_each f acc l g = Ok (mid, g1) ∧ f mid x g1 = Ok r.
Proof.
  rewrite for_each_app. destruct r as [b g2]. rewrite bind_Ok. simpl.
  split; intros (mid & g1 & H1 & H2); exists mid, g1; split; try done.
  - apply bind_Ok in H2 as (b' & g' & Hf & Hr).
    apply ret_Ok in Hr as [-> ->]. done.
  - apply bind_Ok. exists b, g2. split; [done | by apply ret_Ok].
Qed.

(** A loop over a prefix of the list returns whenever the whole loop does. *)
Lemma for_each_prefix {A B} (f : B → A → M R B) l1 l2 acc g r :
  for_each f acc (l1 ++ l2) g = Ok r →
  ∃ mid g1, for_each f acc l1 g = Ok (mid, g1)
            ∧ for_each f mid l2 g1 = Ok r.
Proof.
  rewrite for_each_app. destruct r as [b g2]. rewrite bind_Ok. done.
Qed.

(** A property kept by every turn of a loop holds when the loop returns. *)
Lemma for_each_invariant {A B} (f : B → A → M R B) (P : B → Prop) l :
  (∀ acc x g acc' g', x ∈ l → P acc → f acc x g = Ok (acc', g') → P acc') →
  ∀ acc g acc' g', P acc → for_each f acc l g = Ok (acc', g') → P acc'.
Proof.
  induction l as [|x l IH]; intros Hstep acc g acc' g' HP Hrun; simpl in Hrun.
  - by apply ret_Ok in Hrun as [-> _].
  - apply bind_Ok in Hrun as (mid & g1 & Hhead & Htail).
    eapply IH; [| |exact Htail].
    + intros ????? Hin. apply Hstep. by right.
    + eapply Hstep; [by left|exact HP|exact Hhead].
Qed.

End Computations.

(** Splits a hypothesis [c g = Ok _] along the binds of [c]. *)
Ltac inv_M H :=
  repeat match type of H with
  | bind _ _ _ = Ok _ =>
      let a := fresh "x" in let g := fresh "g" in
      let H1 := fresh H in
      apply bind_Ok in H as (a & g & H1 & H); simpl in H1
  end.

(** ** datetime arithmetic *)

Lemma datetime_add_Ok t d t' :
  Datetime.add t d = Ok t' ↔ t' = t + d ∧ Datetime.valid t'.
Proof.
  unfold Datetime.add, Datetime.validb, Datetime.valid.
  destruct (Z.leb_spec Datetime.datetime_min (t + d));
    destruct (Z.leb_spec (t + d) Datetime.datetime_max); simpl;
    split; try intros [= <-]; try intros [-> ?]; try done; lia.
Qed.

Lemma timedelta_minutes_Ok n d :
  Datetime.timedelta_minutes n = Ok d →
  d = n * Datetime.us_per_minute.
Proof.
  unfold Datetime.timedelta_minutes.
  destruct (_ && _); [by intros [= <-] | done].
Qed.

Lemma plus_minutes_Ok t n t' :
  plus_minutes t n = Ok t' →
  t' = t + n * Datetime.us_per_minute ∧ Datetime.valid t'.
Proof.
  unfold plus_minutes.
  destruct (Datetime.timedelta_minutes n) as [d|e] eqn:Hd; [|done].
  apply timedelta_minutes_Ok in Hd as ->. apply datetime_add_Ok.
Qed.

(** ** The fleet *)

Section Fleet.

Context {lcv : Type} `{LcvId lcv}.

Lemma unique_from_elem_of (seen l : list lcv) x :
  x ∈ unique_from seen l ↔ x ∈ l ∧ x ∉ seen.
Proof.
  revert seen. induction l as [|y l IH]; intros seen; simpl.
  - split; [by intros ?%elem_of_nil | by intros [?%elem_of_nil _]].
  - destruct (decide (y ∈ seen)) as [Hy|Hy].
    + rewrite IH, elem_of_cons. split; [intros [? ?]; auto|].
      intros [[->|?] Hx]; [by destruct Hx | done].
    + rewrite !elem_of_cons, IH, not_elem_of_cons. split.
      * intros [->|(? & ? & ?)]; auto.
      * intros [[->|?] Hx]; [by left|].
        destruct (decide (x = y)) as [->|?]; [by left | by right].
Qed.

Lemma unique_from_NoDup (seen l : list lcv) : NoDup (unique_from seen l).
Proof.
  revert seen. induction l as [|y l IH]; intros seen; simpl.
  - constructor.
  - destruct (decide (y ∈ seen)); [apply IH|].
    constructor; [|apply IH].
    rewrite unique_from_elem_of, not_elem_of_cons. intros (_ & Hy & _).
    by destruct Hy.
Qed.

Lemma fleet_elem_of (lcv_column : list lcv) x :
  x ∈ fleet lcv_column ↔ x ∈ lcv_column.
Proof.
  unfold fleet, sorted. rewrite merge_sort_Permutation.
  unfold unique. rewrite unique_from_elem_of.
  split; [by intros [? _] | intros ?; split; [done | apply not_elem_of_nil]].
Qed.

Lemma fleet_NoDup (lcv_column : list lcv) : NoDup (fleet lcv_column).
Proof.
  unfold fleet, sorted. rewrite merge_sort_Permutation.
  apply unique_from_NoDup.
Qed.

Lemma StronglySorted_strict (l : list lcv) :
  StronglySorted lcv_le l → NoDup l → StronglySorted (strict lcv_le) l.
Proof.
  induction 1 as [|x l Hl IH Hx]; intros Hnd; [constructor|].
  apply NoDup_cons in Hnd as [Hnotin Hnd].
  constructor; [by apply IH|].
  rewrite Forall_forall in Hx |- *. intros y Hy. split; [by apply Hx|].
  intros Hyx. assert (x = y) by (apply (anti_symm lcv_le); auto).
  by subst.
Qed.

(** The vehicles are examined in strictly ascending order. *)
Lemma fleet_ascending (lcv_column : list lcv) :
  StronglySorted (strict lcv_le) (fleet lcv_column).
Proof.
  apply StronglySorted_strict; [|apply fleet_NoDup].
  apply StronglySorted_merge_sort; apply _.
Qed.

End Fleet.

(** ** The choice of a vehicle *)

Section Selection.

Context {lcv : Type} `{LcvId lcv}.
Context (R : RandomSource).

Implicit Types (av : gmap lcv Z) (req : request) (s : scan lcv) (g : rng R).

Lemma getitem_Ok av l t : getitem av l = Ok t ↔ av !! l = Some t.
Proof. unfold getitem. destruct (av !! l); naive_solver. Qed.

(** One vehicle: its candidate times are those of the specification, the
    generator gives one draw, and the scan keeps the vehicle exactly when
    its score is strictly below the best one so far. *)
Lemma try_lcv_Ok av req s l g s' g' :
  try_lcv R av req s l g = Ok (s', g') →
  ∃ t, av !! l = Some t ∧ g' = (jitter R g).2 ∧
    Datetime.valid (candidate_completion t req) ∧
    Datetime.valid (scored_completion t req (jitter R g).1) ∧
    s' = if scored_completion t req (jitter R g).1
            <? earliest_stochastic_completion_time s
         then {| earliest_stochastic_completion_time :=
                   scored_completion t req (jitter R g).1;
                 best := Some (l, candidate_start t req,
                               candidate_completion t req) |}
         else s.
Proof.
  unfold try_lcv. intros Hrun. inv_M Hrun.
  apply lift_Ok in Hrun0 as [Hget ->]. apply getitem_Ok in Hget.
  apply lift_Ok in Hrun1 as [Hdelta ->].
  apply timedelta_minutes_Ok in Hdelta as ->.
  apply lift_Ok in Hrun2 as [Hc ->]. apply datetime_add_Ok in Hc as [-> Hc].
  apply draw_Ok in Hrun3 as [-> ->].
  apply lift_Ok in Hrun4 as [Hs ->]. apply datetime_add_Ok in Hs as [-> Hs].
  apply ret_Ok in Hrun as [-> ->].
  exists x. unfold scored_completion, candidate_completion, candidate_start.
  done.
Qed.

(** The scan of a list of vehicles, from any state of the scan: either no
    score is strictly below the starting threshold and the scan is
    unchanged, or the scan holds the first vehicle of minimal score. *)
Lemma scan_spec av req ls : ∀ s g s' g',
  for_each (try_lcv R av req) s ls g = Ok (s', g') →
  (s' = s ∧
   ∀ j l t, ls !! j = Some l → av !! l = Some t →
     earliest_stochastic_completion_time s
       ≤ scored_completion t req (nth_jitter R j g))
  ∨
  (∃ i l t, ls !! i = Some l ∧ av !! l = Some t ∧
     Datetime.valid (candidate_completion t req) ∧
     s' = {| earliest_stochastic_completion_time :=
               scored_completion t req (nth_jitter R i g);
             best := Some (l, candidate_start t req,
                           candidate_completion t req) |} ∧
     scored_completion t req (nth_jitter R i g)
       < earliest_stochastic_completion_time s ∧
     ∀ j l' t', ls !! j = Some l' → av !! l' = Some t' →
       scored_completion t req (nth_jitter R i g)
         ≤ scored_completion t' req (nth_jitter R j g)
       ∧ ((j < i)%nat →
          scored_completion t req (nth_jitter R i g)
            < scored_completion t' req (nth_jitter R j g))).
Proof.
  induction ls as [|l0 ls IH]; intros s g s' g' Hrun; simpl in Hrun.
  - apply ret_Ok in Hrun as [-> ->]. left. split; [done|].
    intros j l t Hj. by rewrite lookup_nil in Hj.
  - apply bind_Ok in Hrun as (s1 & g1 & Hhead & Htail).
    apply try_lcv_Ok in Hhead as (t0 & Ht0 & -> & Hv0 & _ & ->).
    set (score0 := scored_completion t0 req (jitter R g).1) in *.
    destruct (Z.ltb_spec score0 (earliest_stochastic_completion_time s))
      as [Hlt0|Hge0];
      apply IH in Htail
        as [[-> Hall] | (i & l & t & Hi & Ht & Hv & -> & Hlt & Hmin)];
      simpl in *.
    + right. exists O, l0, t0. simpl. split_and!; try done.
      intros j l' t' Hj Ht'. destruct j as [|j]; simpl in *.
      * assert (t' = t0) by congruence. subst. lia.
      * split; [by apply (Hall j l' t') | lia].
    + right. exists (S i), l, t. simpl. split_and!; try done; try lia.
      intros j l' t' Hj Ht'. destruct j as [|j]; simpl in *.
      * assert (t' = t0) by congruence. subst. fold score0. lia.
      * split; [by apply (Hmin j l' t')|].
        intros Hlt'. apply (Hmin j l' t'); [done..|lia].
    + left. split; [done|]. intros j l t Hj Ht.
      destruct j as [|j]; simpl in *.
      * assert (t = t0) by congruence. subst. done.
      * by apply (Hall j l t).
    + right. exists (S i), l, t. simpl. split_and!; try done.
      intros j l' t' Hj Ht'. destruct j as [|j]; simpl in *.
      * assert (t' = t0) by congruence. subst. fold score0. lia.
      * split; [by apply (Hmin j l' t')|].
        intros Hlt'. apply (Hmin j l' t'); [done..|lia].
Qed.

(** One request: either nothing is recorded and the tracker is as before,
    or the first vehicle of minimal score, say [l], is recorded with the
    candidate times of the specification and the tracker moves at [l]. *)
Lemma assign_request_spec fl (st st' : gmap lcv Z * list (assignment lcv))
    req g g' :
  assign_request R fl st req g = Ok (st', g') →
  st' = st
  ∨
  (∃ i l t, fl !! i = Some l ∧ st.1 !! l = Some t ∧ truthy l = true ∧
     Datetime.valid (candidate_completion t req) ∧
     st' = (<[l := candidate_completion t req]> st.1,
            st.2 ++ [ {| request_of := req; assigned_lcv := l;
                         start_time := candidate_start t req;
                         completion_time := candidate_completion t req |} ])
     ∧ scored_completion t req (nth_jitter R i g) < Datetime.datetime_max
     ∧ ∀ j l' t', fl !! j = Some l' → st.1 !! l' = Some t' →
         scored_completion t req (nth_jitter R i g)
           ≤ scored_completion t' req (nth_jitter R j g)
         ∧ ((j < i)%nat →
            scored_completion t req (nth_jitter R i g)
              < scored_completion t' req (nth_jitter R j g))).
Proof.
  unfold assign_request, select_lcv. intros Hrun. inv_M Hrun.
  apply ret_Ok in Hrun as [-> ->].
  apply scan_spec in Hrun0
    as [[-> _] | (i & l & t & Hi & Ht & Hv & -> & Hlt & Hmin)].
  - by left.
  - unfold record_assignment. simpl.
    destruct (truthy l) eqn:Htruthy; [|by left].
    right. exists i, l, t. done.
Qed.

End Selection.

(** ** The claims on one request *)

Section Requests.

Context {lcv : Type} `{LcvId lcv}.
Context (R : RandomSource).

(** C1. The vehicles are examined in strictly ascending order of
    identifier, and when a request is given an assignment, the assigned
    vehicle has the smallest jittered score
    [candidate_completion + jitter] of all vehicles and is the first one
    in that order to have it: its score is strictly below the score of
    every vehicle examined before it. *)
Theorem C1_first_vehicle_of_minimal_score
    (lcv_column : list lcv) (st st' : gmap lcv Z * list (assignment lcv))
    (req : request) (g g' : rng R) (a : assignment lcv) :
  assign_request R (fleet lcv_column) st req g = Ok (st', g') →
  st'.2 = st.2 ++ [a] →
  StronglySorted (strict lcv_le) (fleet lcv_column) ∧
  first_of_minimal_score R (fleet lcv_column) st.1 req g (assigned_lcv a).
Proof.
  intros Hrun Hrec. split; [apply fleet_ascending|].
  apply assign_request_spec in Hrun
    as [-> | (i & l & t & Hi & Ht & _ & _ & -> & _ & Hmin)].
  - apply (f_equal length) in Hrec. rewrite length_app in Hrec.
    simpl in Hrec. lia.
  - simpl in Hrec. apply app_inv_head in Hrec. injection Hrec as <-.
    exists i, t. simpl. done.
Qed.



(** C10. A request changes the tracker at no vehicle but the one it is
    assigned to, and changes nothing when it is given no assignment. *)
Theorem C10_tracker_frame
    (all_lcvs : list lcv) (st st' : gmap lcv Z * list (assignment lcv))
    (req : request) (g g' : rng R) :
  assign_request R all_lcvs st req g = Ok (st', g') →
  (st'.2 = st.2 ∧ st'.1 = st.1)
  ∨
  (∃ a, st'.2 = st.2 ++ [a] ∧ request_of a = req ∧
        st'.1 = <[assigned_lcv a := completion_time a]> st.1 ∧
        ∀ l, l ≠ assigned_lcv a → st'.1 !! l = st.1 !! l).
Proof.
  intros Hrun. apply assign_request_spec in Hrun
    as [-> | (i & l & t & Hi & Ht & _ & _ & -> & _ & _)].
  - by left.
  - right. eexists. simpl. split_and!; try done.
    intros l' Hne. by rewrite lookup_insert_ne.
Qed.

End Requests.

(** Two vehicles tie at 08:30:00.000007; vehicle 1 is examined first and
    is assigned. *)
Lemma C1_witness :
  StronglySorted (strict lcv_le) (fleet example_column) ∧
  first_of_minimal_score scripted (fleet example_column) example_start.1
    request_a [7; 7] 1.
Proof.
  apply (C1_first_vehicle_of_minimal_score scripted example_column
           example_start example_after_a request_a [7; 7] []
           (assignment_a 1));
    vm_compute; reflexivity.
Defined.

(** A request created at 08:00 is assigned to vehicle 1: the tracker
    moves at 1 and keeps midnight at 2. *)
Lemma C10_witness :
  (example_after_a.2 = example_start.2
   ∧ example_after_a.1 = example_start.1)
  ∨
  (∃ a, example_after_a.2 = example_start.2 ++ [a] ∧
        request_of a = request_a ∧
        example_after_a.1
        = <[assigned_lcv a := completion_time a]> example_start.1 ∧
        ∀ l, l ≠ assigned_lcv a →
          example_after_a.1 !! l = example_start.1 !! l).
Proof.
  apply (C10_tracker_frame scripted (fleet example_column) example_start
           example_after_a request_a [7; 7] []).
  vm_compute; reflexivity.
Defined.

(** ** The claims on a run of the heuristic *)

Section Runs.

Context {lcv : Type} `{LcvId lcv}.
Context (R : RandomSource).

Implicit Types (st : gmap lcv Z * list (assignment lcv)) (g : rng R).

(** C2. Every recorded assignment was made at some point of the run, after
    the requests [reqs1] that precede its own: with the tracker [av1] of
    that moment, its start is the larger of the vehicle's availability and
    of the creation time of the request, its completion is the start plus
    the truncated duration in minutes, and the tracker of the vehicle
    becomes that completion.  No jitter occurs in these values. *)
Theorem C2_recorded_times
    (all_lcvs : list lcv) (start_date : Z) (reqs : list request) g
    (av_f : gmap lcv Z) (sched_f : list (assignment lcv)) g_f
    (k : nat) (a : assignment lcv) :
  vrp_heuristic R all_lcvs start_date reqs g = Ok ((av_f, sched_f), g_f) →
  sched_f !! k = Some a →
  recorded_from_tracker R all_lcvs start_date reqs g k a.
Proof.
  unfold recorded_from_tracker, vrp_heuristic.
  revert av_f sched_f g_f k a.
  induction reqs as [|x l IH] using rev_ind; intros av_f sched_f g_f k a Hrun Hk.
  - apply ret_Ok in Hrun as [[= -> ->] _].
    apply lookup_lt_Some in Hk. simpl in Hk. lia.
  - pose proof Hrun as Hwhole.
    apply for_each_snoc in Hrun as ([avm schedm] & gm & Hprefix & Hstep).
    apply assign_request_spec in Hstep
      as [[= -> ->] | (i & l0 & t & Hi & Ht & _ & _ & [= -> ->] & _)].
    + destruct (IH _ _ _ _ _ Hprefix Hk)
        as (reqs1 & reqs2 & av1 & sched1 & g1 & g2 & t & -> & Hrest).
      exists reqs1, (reqs2 ++ [x]), av1, sched1, g1, g2, t.
      split; [by rewrite <- app_assoc|done].
    + simpl in *. destruct (decide (k < length schedm)%nat) as [Hlt|Hge].
      * rewrite lookup_app_l in Hk by done.
        destruct (IH _ _ _ _ _ Hprefix Hk)
          as (reqs1 & reqs2 & av1 & sched1 & g1 & g2 & t' & -> & Hrest).
        exists reqs1, (reqs2 ++ [x]), av1, sched1, g1, g2, t'.
        split; [by rewrite <- app_assoc|done].
      * rewrite lookup_app_r in Hk by lia.
        destruct (k - length schedm)%nat as [|n] eqn:Hn; simpl in Hk;
          [|apply lookup_lt_Some in Hk; simpl in Hk; lia].
        injection Hk as <-. simpl.
        exists l, [], avm, schedm, gm, g_f, t.
        split_and!; try done. lia.
Qed.

(** The tracker before the first request. *)
Lemma initial_availability_lookup (all_lcvs : list lcv) start_date l :
  l ∈ all_lcvs →
  initial_availability all_lcvs start_date !! l
  = Some (Datetime.combine_midnight start_date).
Proof.
  unfold initial_availability.
  induction all_lcvs as [|l0 ls IH]; intros Hin.
  - by apply elem_of_nil in Hin.
  - rewrite fmap_cons, list_to_map_cons. simpl.
    destruct (decide (l0 = l)) as [->|Hne].
    + by rewrite lookup_insert_eq.
    + rewrite lookup_insert_ne by done. apply IH.
      apply elem_of_cons in Hin as [->|?]; done.
Qed.

Lemma py_int_nonneg (x : Q) : Qle 0 x → 0 ≤ py_int x.
Proof.
  unfold Qle, py_int. simpl. intros Hx.
  apply Z.quot_pos; lia.
Qed.

Lemma last_completion_snoc l (sched : list (assignment lcv)) a :
  last_completion l (sched ++ [a])
  = if decide (assigned_lcv a = l) then Some (completion_time a)
    else last_completion l sched.
Proof.
  unfold last_completion. rewrite filter_app, filter_cons, filter_nil.
  destruct (decide (assigned_lcv a = l)).
  - rewrite fmap_app. simpl. by rewrite last_snoc.
  - by rewrite app_nil_r.
Qed.

(** A turn of the loop never lowers the tracker when the duration of the
    request is not negative. *)
Lemma assign_request_monotone all_lcvs st req g st' g' l t1 :
  Qle 0 (duration req) →
  assign_request R all_lcvs st req g = Ok (st', g') →
  st.1 !! l = Some t1 →
  ∃ t2, st'.1 !! l = Some t2 ∧ t1 ≤ t2.
Proof.
  intros Hdur Hrun Hl. apply py_int_nonneg in Hdur.
  apply assign_request_spec in Hrun
    as [-> | (i & l0 & t & Hi & Ht & _ & _ & -> & _ & _)].
  - exists t1. split; [done|lia].
  - simpl. destruct (decide (l0 = l)) as [->|Hne].
    + rewrite lookup_insert_eq. eexists; split; [done|].
      assert (t = t1) by congruence. subst.
      unfold candidate_completion, candidate_start, Datetime.us_per_minute,
        Datetime.us_per_second. lia.
    + rewrite lookup_insert_ne by done. exists t1. split; [done|lia].
Qed.

Lemma assign_request_tracks all_lcvs start_date st req g st' g' :
  tracks_last_completion all_lcvs start_date st →
  assign_request R all_lcvs st req g = Ok (st', g') →
  tracks_last_completion all_lcvs start_date st'.
Proof.
  intros Hinv Hrun l Hl.
  apply assign_request_spec in Hrun
    as [-> | (i & l0 & t & Hi & Ht & _ & _ & -> & _ & _)]; [by apply Hinv|].
  simpl. rewrite last_completion_snoc. simpl.
  destruct (decide (l0 = l)) as [->|Hne].
  - by rewrite lookup_insert_eq.
  - rewrite lookup_insert_ne by done. by apply Hinv.
Qed.

(** C3. Between any two moments of a run whose requests have non-negative
    durations, the tracker of a vehicle of the fleet does not decrease;
    and at the later moment (the end of the run included) it is the
    completion time of the last assignment routed to the vehicle, or
    midnight of the day if there is none. *)
Theorem C3_tracker_monotone_and_last
    (all_lcvs : list lcv) (start_date : Z) (reqs1 reqs2 : list request) g
    (av1 av2 : gmap lcv Z) (sched1 sched2 : list (assignment lcv)) g1 g2
    (l : lcv) :
  (∀ r, r ∈ reqs1 ++ reqs2 → Qle 0 (duration r)) →
  vrp_heuristic R all_lcvs start_date reqs1 g = Ok ((av1, sched1), g1) →
  vrp_heuristic R all_lcvs start_date (reqs1 ++ reqs2) g
  = Ok ((av2, sched2), g2) →
  l ∈ all_lcvs →
  ∃ t1 t2,
    av1 !! l = Some t1 ∧ av2 !! l = Some t2 ∧ t1 ≤ t2 ∧
    t2 = default (Datetime.combine_midnight start_date)
                 (last_completion l sched2).
Proof.
  unfold vrp_heuristic. intros Hdur Hrun1 Hrun2 Hl.
  apply for_each_prefix in Hrun2 as (mid & gm & Hrun1' & Hrest).
  rewrite Hrun1 in Hrun1'. injection Hrun1' as <- <-.
  assert (tracks_last_completion all_lcvs start_date (av1, sched1)) as Hinv1.
  { eapply (for_each_invariant _ (tracks_last_completion all_lcvs start_date));
      [| |exact Hrun1].
    - intros ????? _. apply assign_request_tracks.
    - intros l' Hl'. simpl. by rewrite initial_availability_lookup. }
  assert (tracks_last_completion all_lcvs start_date (av2, sched2)) as Hinv2.
  { eapply (for_each_invariant _ (tracks_last_completion all_lcvs start_date));
      [| |exact Hrest]; [|done].
    intros ????? _. apply assign_request_tracks. }
  pose proof (Hinv1 l Hl) as Ht1. pose proof (Hinv2 l Hl) as Ht2.
  simpl in Ht1, Ht2. eexists _, _. split_and!; [done..| |done].
  cut (∃ t2, av2 !! l = Some t2
             ∧ default (Datetime.combine_midnight start_date)
                       (last_completion l sched1) ≤ t2).
  { intros (t2 & Heq & Hle). rewrite Ht2 in Heq. by injection Heq as ->. }
  refine (for_each_invariant _
            (λ st, ∃ t2, st.1 !! l = Some t2
                         ∧ default (Datetime.combine_midnight start_date)
                             (last_completion l sched1) ≤ t2)
            reqs2 _ (av1, sched1) g1 (av2, sched2) g2 _ Hrest).
  - intros st x g0 st' g' Hx (t & Ht & Hle) Hstep.
    destruct (assign_request_monotone _ _ _ _ _ _ _ _
                (Hdur x ltac:(rewrite elem_of_app; by right)) Hstep Ht)
      as (t' & Ht' & Hle').
    exists t'. split; [done|lia].
  - simpl. eexists. split; [exact Ht1|lia].
Qed.

End Runs.

(** The second assignment of a run of two requests: the tracker of
    vehicle 2 is still at midnight when [request_b] is created. *)
Lemma C2_witness :
  recorded_from_tracker scripted (fleet example_column) example_day
    [request_a; request_b] [7; 7; 3; 9] 1 (assignment_b 2).
Proof.
  apply (C2_recorded_times scripted (fleet example_column) example_day
           [request_a; request_b] [7; 7; 3; 9]
           example_after_b.1 example_after_b.2 [] 1 (assignment_b 2));
    vm_compute; reflexivity.
Defined.

(** Vehicle 1 between the first and the second request of that run: its
    tracker stays at 08:30, the completion of [request_a]. *)
Lemma C3_witness :
  ∃ t1 t2,
    example_after_a.1 !! 1 = Some t1 ∧ example_after_b.1 !! 1 = Some t2 ∧
    t1 ≤ t2 ∧
    t2 = default (Datetime.combine_midnight example_day)
                 (last_completion 1 example_after_b.2).
Proof.
  apply (C3_tracker_monotone_and_last scripted (fleet example_column)
           example_day [request_a] [request_b] [7; 7; 3; 9]
           example_after_a.1 example_after_b.1
           example_after_a.2 example_after_b.2 [3; 9] [] 1).
  - intros r Hr. unfold Qle. simpl in Hr.
    apply elem_of_cons in Hr as [->|Hr]; [vm_compute; discriminate|].
    apply elem_of_cons in Hr as [->|Hr]; [vm_compute; discriminate|].
    by apply elem_of_nil in Hr.
  - vm_compute; reflexivity.
  - vm_compute; reflexivity.
  - vm_compute. by left.
Defined.

(** ** The six stages *)

Section Stages.

Context {lcv : Type} `{LcvId lcv}.
Context (R : RandomSource).

Implicit Types (a : assignment lcv) (t : stage_times) (g : rng R).

(** The stage times of one assignment: four draws, five additions. *)
Lemma simulate_stages_Ok a g t g' :
  simulate_stages R a g = Ok (t, g') →
  ∃ ga gb gc gd,
    stage1_time t = start_time a ∧
    stage2_time t
    = stage1_time t + (randint R 4 6 ga).1 * Datetime.us_per_minute ∧
    stage3_time t
    = stage2_time t + (randint R 28 32 gb).1 * Datetime.us_per_minute ∧
    stage4_time t
    = stage3_time t
      + py_int (duration (request_of a)) * Datetime.us_per_minute ∧
    stage5_time t
    = stage4_time t + (randint R 4 6 gc).1 * Datetime.us_per_minute ∧
    stage6_time t
    = stage5_time t + (randint R 28 32 gd).1 * Datetime.us_per_minute ∧
    Forall Datetime.valid
      [stage2_time t; stage3_time t; stage4_time t; stage5_time t;
       stage6_time t].
Proof.
  unfold simulate_stages. intros Hrun. inv_M Hrun.
  apply draw_Ok in Hrun0 as [-> ->].
  apply lift_Ok in Hrun1 as [[-> Hv2]%plus_minutes_Ok ->].
  apply draw_Ok in Hrun2 as [-> ->].
  apply lift_Ok in Hrun3 as [[-> Hv3]%plus_minutes_Ok ->].
  apply lift_Ok in Hrun4 as [[-> Hv4]%plus_minutes_Ok ->].
  apply draw_Ok in Hrun5 as [-> ->].
  apply lift_Ok in Hrun6 as [[-> Hv5]%plus_minutes_Ok ->].
  apply draw_Ok in Hrun7 as [-> ->].
  apply lift_Ok in Hrun8 as [[-> Hv6]%plus_minutes_Ok ->].
  apply ret_Ok in Hrun as [-> ->]. simpl.
  eexists _, _, _, _. split_and!; try reflexivity.
  repeat (apply Forall_cons; split; [done|]). apply Forall_nil_2.
Qed.

Lemma simulate_stages_gaps a g t g' :
  RandomSourceLaws R →
  simulate_stages R a g = Ok (t, g') →
  stage_gaps a t.
Proof.
  intros [_ Hint] Hrun.
  apply simulate_stages_Ok in Hrun
    as (ga & gb & gc & gd & H1 & H2 & H3 & H4 & H5 & H6 & _).
  pose proof (Hint 4 6 ga ltac:(lia)) as Ha.
  pose proof (Hint 28 32 gb ltac:(lia)) as Hb.
  pose proof (Hint 4 6 gc ltac:(lia)) as Hc.
  pose proof (Hint 28 32 gd ltac:(lia)) as Hd.
  unfold stage_gaps, minutes_between. split_and!; try done.
  - eexists; split; [exact Ha|lia].
  - eexists; split; [exact Hb|lia].
  - lia.
  - eexists; split; [exact Hc|lia].
  - eexists; split; [exact Hd|lia].
  - intros Hdur%py_int_nonneg.
    unfold Datetime.us_per_minute, Datetime.us_per_second in *. lia.
Qed.

(** The loop of the simulation appends one entry to each array for each
    assignment, in the order of the schedule. *)
Lemma simulation_loop (sched : list (assignment lcv)) :
  ∀ (res0 res : results lcv) g g',
  for_each (simulate_assignment R) res0 sched g = Ok (res, g') →
  optimal_schedule res
  = optimal_schedule res0 ++ (format_schedule_entry <$> sched) ∧
  ∃ ts,
    simulation_timeline res
    = simulation_timeline res0 ++ zip_with format_timeline_entry sched ts ∧
    Forall2 (λ a t, ∃ g1 g2, simulate_stages R a g1 = Ok (t, g2)) sched ts.
Proof.
  induction sched as [|a sched IH]; intros res0 res g g' Hrun; simpl in Hrun.
  - apply ret_Ok in Hrun as [-> _]. simpl. rewrite app_nil_r.
    split; [done|]. exists []. simpl. by rewrite app_nil_r.
  - apply bind_Ok in Hrun as (res1 & g1 & Hhead & Htail).
    unfold simulate_assignment in Hhead. inv_M Hhead.
    apply ret_Ok in Hhead as [-> ->].
    apply IH in Htail as (Hsched & ts & Htl & Hts). simpl in *.
    split; [by rewrite Hsched, <- app_assoc|].
    exists (x :: ts). simpl. split; [by rewrite Htl, <- app_assoc|].
    constructor; [eauto|done].
Qed.

(** The run is the heuristic followed by the simulation of its schedule. *)
Lemma run_lcv_optimization_Ok sort_values (lcv_column : list lcv) start_date
    reqs g (res : results lcv) g' :
  run_lcv_optimization R sort_values lcv_column start_date reqs g
  = Ok (res, g') ↔
  ∃ av final_schedule g1,
    vrp_heuristic R (fleet lcv_column) start_date (sort_values reqs) g
    = Ok ((av, final_schedule), g1) ∧
    simulation R final_schedule g1 = Ok (res, g').
Proof.
  unfold run_lcv_optimization. rewrite bind_Ok. split.
  - intros ([av sched] & g1 & Hvrp & Hsim). by exists av, sched, g1.
  - intros (av & sched & g1 & Hvrp & Hsim). by exists (av, sched), g1.
Qed.

(** C4. Whatever the draws, as long as each lies within its bounds, the
    timeline has one entry for each assignment, and the six fields of the
    entry print six times, field by field: stage 1 the start of the
    assignment, stage 2 later by 4 to 6 whole minutes, stage 3 by 28 to
    32, stage 4 by the truncated duration of the request, stage 5 by 4 to
    6, stage 6 by 28 to 32; the times do not decrease when the duration
    is not negative. *)
Theorem C4_stage_gaps sort_values (lcv_column : list lcv) start_date
    reqs g (res : results lcv) g' :
  RandomSourceLaws R →
  run_lcv_optimization R sort_values lcv_column start_date reqs g
  = Ok (res, g') →
  ∃ av final_schedule g1,
    vrp_heuristic R (fleet lcv_column) start_date (sort_values reqs) g
    = Ok ((av, final_schedule), g1) ∧
    timeline_of_schedule final_schedule (simulation_timeline res).
Proof.
  intros Hlaws (av & sched & g1 & Hvrp & Hsim)%run_lcv_optimization_Ok.
  exists av, sched, g1. split; [done|].
  apply simulation_loop in Hsim as (_ & ts & Htl & Hts). simpl in Htl.
  unfold timeline_of_schedule. rewrite Htl. clear Htl Hvrp.
  induction Hts as [|a t sched ts (ga & gb & Hstages) Hts IH]; simpl;
    constructor; [|exact IH].
  split_and!; [done..|]. exists t.
  split; [by eapply simulate_stages_gaps|]. by split_and!.
Qed.

(** C9. The two arrays have the same length, and the entries of rank [i]
    carry the same request identifier and the same vehicle; the first
    stage of the timeline entry is the start time of the schedule entry. *)
Theorem C9_arrays_aligned sort_values (lcv_column : list lcv) start_date
    reqs g (res : results lcv) g' :
  run_lcv_optimization R sort_values lcv_column start_date reqs g
  = Ok (res, g') →
  aligned res.
Proof.
  intros (av & sched & g1 & Hvrp & Hsim)%run_lcv_optimization_Ok.
  apply simulation_loop in Hsim as (Hsched & ts & Htl & Hts).
  simpl in Hsched, Htl. unfold aligned. rewrite Hsched, Htl.
  split.
  - rewrite length_fmap, length_zip_with.
    apply Forall2_length in Hts. lia.
  - intros i e t He Ht.
    apply list_lookup_fmap_Some in He as (a & -> & Ha).
    apply lookup_zip_with_Some in Ht as (a' & st & -> & Ha' & Hst).
    assert (a' = a) as -> by congruence.
    destruct (Forall2_lookup_lr _ _ _ _ _ _ Hts Ha Hst)
      as (g2 & g3 & Hstages).
    apply simulate_stages_Ok in Hstages as (_ & _ & _ & _ & Hs1 & _).
    simpl. by rewrite Hs1.
Qed.

End Stages.

(** The scripted generator keeps the promises of the library. *)
Lemma scripted_laws : RandomSourceLaws scripted.
Proof.
  split; simpl.
  - intros g. pose proof (Z.mod_pos_bound (hd 0 g) (jitter_max + 1)).
    unfold jitter_max, Datetime.us_per_minute, Datetime.us_per_second in *.
    lia.
  - intros a b g Hab.
    pose proof (Z.mod_pos_bound (hd 0 g) (b - a + 1)). lia.
Qed.

(** The run of the two example requests. *)
Lemma example_run :
  run_lcv_optimization scripted stable_sort_values example_column
    example_day [request_b; request_a] example_script
  = Ok (example_results, []).
Proof. vm_compute. reflexivity. Qed.

(** The timeline of the run of the two example requests. *)
Lemma C4_witness :
  ∃ av final_schedule g1,
    vrp_heuristic scripted (fleet example_column) example_day
      (stable_sort_values [request_b; request_a]) example_script
    = Ok ((av, final_schedule), g1) ∧
    timeline_of_schedule final_schedule (simulation_timeline example_results).
Proof.
  apply (C4_stage_gaps scripted stable_sort_values example_column
           example_day [request_b; request_a] example_script
           example_results []).
  - apply scripted_laws.
  - vm_compute; reflexivity.
Defined.

(** The two arrays of that run. *)
Lemma C9_witness : aligned example_results.
Proof.
  apply (C9_arrays_aligned scripted stable_sort_values example_column
           example_day [request_b; request_a] example_script
           example_results []).
  vm_compute; reflexivity.
Defined.

(** ** Two runs from the same state of the generator *)

Section Determinism.

Context {lcv : Type} `{LcvId lcv}.
Context (R1 R2 : RandomSource) (sim : rng R1 → rng R2 → Prop).
Hypothesis Hdraws : same_draws R1 R2 sim.

Lemma agree_ret {A} (a : A) : agree sim (ret a) (ret a).
Proof. intros g1 g2 Hg. simpl. done. Qed.

Lemma agree_lift {A} (r : result A) : agree sim (lift r) (lift r).
Proof. intros g1 g2 Hg. unfold lift. destruct r; simpl; done. Qed.

Lemma agree_bind {A B} (c1 : M R1 A) (c2 : M R2 A)
    (k1 : A → M R1 B) (k2 : A → M R2 B) :
  agree sim c1 c2 → (∀ a, agree sim (k1 a) (k2 a)) →
  agree sim (bind c1 k1) (bind c2 k2).
Proof.
  intros Hc Hk g1 g2 Hg. specialize (Hc g1 g2 Hg). unfold bind.
  destruct (c1 g1) as [[a1 g1']|e1], (c2 g2) as [[a2 g2']|e2];
    simpl in Hc; try done.
  destruct Hc as [-> Hg']. by apply Hk.
Qed.

Lemma agree_jitter : agree sim (draw (jitter R1)) (draw (jitter R2)).
Proof.
  intros g1 g2 Hg. destruct (Hdraws g1 g2 Hg) as [[Hj Hs] _].
  unfold draw. simpl.
  destruct (jitter R1 g1), (jitter R2 g2). simpl in *. done.
Qed.

Lemma agree_randint a b :
  agree sim (draw (randint R1 a b)) (draw (randint R2 a b)).
Proof.
  intros g1 g2 Hg. destruct (Hdraws g1 g2 Hg) as [_ Hr].
  destruct (Hr a b) as [Hn Hs]. unfold draw. simpl.
  destruct (randint R1 a b g1), (randint R2 a b g2). simpl in *. done.
Qed.

Lemma agree_for_each {A B} (f1 : B → A → M R1 B) (f2 : B → A → M R2 B) l :
  (∀ acc x, agree sim (f1 acc x) (f2 acc x)) →
  ∀ acc, agree sim (for_each f1 acc l) (for_each f2 acc l).
Proof.
  intros Hf. induction l as [|x l IH]; intros acc; simpl.
  - apply agree_ret.
  - apply agree_bind; [apply Hf | apply IH].
Qed.

End Determinism.

(** Proves that two computations built alike agree. *)
Ltac agree_steps :=
  repeat first
    [ apply agree_ret
    | apply agree_lift
    | apply agree_jitter; assumption
    | apply agree_randint; assumption
    | apply agree_bind; [|intros ?]
    | apply agree_for_each; intros ? ? ].

Section Determinism_run.

Context {lcv : Type} `{LcvId lcv}.
Context (R1 R2 : RandomSource) (sim : rng R1 → rng R2 → Prop).


End Determinism_run.


(** ** The order of processing *)

Section Order.

Context {lcv : Type} `{LcvId lcv}.
Context (R : RandomSource).

(** The requests of the schedule are requests of the loop, in the order
    of the loop. *)
Lemma vrp_loop_sublist (all_lcvs : list lcv) reqs :
  ∀ (st st' : gmap lcv Z * list (assignment lcv)) (g g' : rng R),
  for_each (assign_request R all_lcvs) st reqs g = Ok (st', g') →
  ∃ new, st'.2 = st.2 ++ new ∧ (request_of <$> new) `sublist_of` reqs.
Proof.
  induction reqs as [|x reqs IH]; intros st st' g g' Hrun; simpl in Hrun.
  - apply ret_Ok in Hrun as [-> _]. exists []. by rewrite app_nil_r.
  - apply bind_Ok in Hrun as (st1 & g1 & Hhead & Htail).
    apply IH in Htail as (new & Hnew & Hsub).
    apply assign_request_spec in Hhead
      as [-> | (i & l & t & _ & _ & _ & _ & -> & _)].
    + exists new. split; [done|]. by apply sublist_cons.
    + simpl in Hnew. eexists (_ :: new). split.
      * rewrite Hnew, <- app_assoc. reflexivity.
      * simpl. by apply sublist_skip.
Qed.

(** With a sort that returns the rows in ascending order of
    [create_date], the requests are processed in that order, and both
    arrays list the requests that were given an assignment in the order of
    processing.  (The order of two requests of equal [create_date] is the
    one the sort returns.) *)
Theorem processed_in_ascending_order
    sort_values (lcv_column : list lcv) start_date reqs g
    (res : results lcv) g' :
  sorts_by_create_date sort_values →
  run_lcv_optimization R sort_values lcv_column start_date reqs g
  = Ok (res, g') →
  sort_values reqs ≡ₚ reqs ∧
  Sorted by_create_date (sort_values reqs) ∧
  ∃ processed,
    processed `sublist_of` sort_values reqs ∧
    Request_ID <$> optimal_schedule res = request_id <$> processed ∧
    timeline_Request_ID <$> simulation_timeline res
    = request_id <$> processed.
Proof.
  intros Hsort (av & sched & g1 & Hvrp & Hsim)%run_lcv_optimization_Ok.
  destruct (Hsort reqs) as [Hperm Hsorted]. split_and!; [done..|].
  apply vrp_loop_sublist in Hvrp as (new & Hnew & Hsub). simpl in Hnew.
  subst sched.
  apply simulation_loop in Hsim as (Hsched & ts & Htl & Hts).
  simpl in Hsched, Htl.
  exists (request_of <$> new). split; [done|].
  rewrite Hsched, Htl. rewrite <- !list_fmap_compose. split; [done|].
  apply Forall2_length in Hts. clear -Hts.
  revert ts Hts. induction new as [|a new IH]; intros [|t ts] Hlen;
    simpl in *; try done.
  f_equal. apply IH. lia.
Qed.

End Order.

#[global] Instance by_create_date_total : Total by_create_date.
Proof. intros r1 r2. unfold by_create_date. lia. Qed.

Lemma insert_by_create_date_Permutation r l :
  insert_by_create_date r l ≡ₚ r :: l.
Proof.
  induction l as [|r' l IH]; simpl; [done|].
  destruct (decide (by_create_date r r')); [done|].
  by rewrite IH, Permutation_swap.
Qed.

Lemma insert_by_create_date_Sorted r l :
  Sorted by_create_date l → Sorted by_create_date (insert_by_create_date r l).
Proof.
  induction 1 as [|r' l Hl IH Hhd]; simpl.
  - by repeat constructor.
  - destruct (decide (by_create_date r r')) as [Hle|Hgt].
    + constructor; [by constructor|by constructor].
    + constructor; [done|].
      assert (by_create_date r' r) as Hr by (unfold by_create_date in *; lia).
      destruct Hhd as [|r2 l2 Hr2]; simpl; [by constructor|].
      destruct (decide (by_create_date r r2)); by constructor.
Qed.

Lemma stable_sort_values_sorts : sorts_by_create_date stable_sort_values.
Proof.
  intros l. unfold stable_sort_values. split.
  - induction l as [|r l IH]; simpl; [done|].
    by rewrite insert_by_create_date_Permutation, IH.
  - induction l as [|r l IH]; simpl; [constructor|].
    by apply insert_by_create_date_Sorted.
Qed.

(** The sort of the examples is stable: the rows of one [create_date]
    come out in the order in which they went in. *)
Lemma stable_sort_values_stable (d : Z) (l : list request) :
  filter (λ r, create_date r = d) (stable_sort_values l)
  = filter (λ r, create_date r = d) l.
Proof.
  unfold stable_sort_values.
  induction l as [|r l IH]; simpl; [done|].
  rewrite filter_cons, <- IH. clear IH.
  induction (foldr insert_by_create_date [] l) as [|r' l' IH]; simpl.
  - by rewrite filter_cons.
  - destruct (decide (by_create_date r r')) as [Hle|Hgt].
    + by rewrite filter_cons.
    + rewrite (filter_cons _ r'), IH, (filter_cons _ r').
      unfold by_create_date in Hgt.
      destruct (decide (create_date r = d)) as [Hr|Hr];
        destruct (decide (create_date r' = d)) as [Hr'|Hr']; try done.
      lia.
Qed.

(** The two example requests, given in the order [request_b],
    [request_a], are processed in the order of their creation. *)
Lemma processed_in_ascending_order_witness :
  stable_sort_values [request_b; request_a] ≡ₚ [request_b; request_a] ∧
  Sorted by_create_date (stable_sort_values [request_b; request_a]) ∧
  ∃ processed,
    processed `sublist_of` stable_sort_values [request_b; request_a] ∧
    Request_ID <$> optimal_schedule example_results
    = request_id <$> processed ∧
    timeline_Request_ID <$> simulation_timeline example_results
    = request_id <$> processed.
Proof.
  apply (processed_in_ascending_order scripted stable_sort_values
           example_column example_day [request_b; request_a] example_script
           example_results []).
  - apply stable_sort_values_sorts.
  - vm_compute; reflexivity.
Defined.

(** ** Requests without an assignment *)

Section Unassigned.

Context {lcv : Type} `{LcvId lcv}.
Context (R : RandomSource).

(** With an empty fleet no request is given an assignment, and no draw is
    made. *)
Lemma empty_fleet_schedules_nothing start_date reqs (g : rng R) :
  vrp_heuristic R ([] : list lcv) start_date reqs g
  = Ok ((initial_availability [] start_date, []), g).
Proof.
  unfold vrp_heuristic.
  generalize (initial_availability ([] : list lcv) start_date).
  intros av. induction reqs as [|x reqs IH]; simpl; [done|].
  unfold bind at 1. simpl. exact IH.
Qed.

(** A request is given exactly one assignment when the identifiers of the
    fleet are true values and the score of some vehicle is below
    [datetime.max]. *)
Lemma assigned_when_truthy (all_lcvs : list lcv)
    (st st' : gmap lcv Z * list (assignment lcv)) req (g g' : rng R) :
  assign_request R all_lcvs st req g = Ok (st', g') →
  (∀ l, l ∈ all_lcvs → truthy l = true) →
  (∃ j l t, all_lcvs !! j = Some l ∧ st.1 !! l = Some t ∧
            scored_completion t req (nth_jitter R j g)
            < Datetime.datetime_max) →
  ∃ a, st'.2 = st.2 ++ [a] ∧ request_of a = req.
Proof.
  unfold assign_request, select_lcv. intros Hrun Htruthy (j & l & t & Hj & Ht & Hlt).
  inv_M Hrun. apply ret_Ok in Hrun as [-> ->].
  apply scan_spec in Hrun0
    as [[-> Hall] | (i & l' & t' & Hi & Ht' & Hv & -> & _ & _)].
  - specialize (Hall j l t Hj Ht). simpl in Hall. lia.
  - unfold record_assignment. simpl.
    rewrite Htruthy by (by eapply list_elem_of_lookup_2).
    simpl. eexists. split; [reflexivity|done].
Qed.

End Unassigned.

(** C5 fails on the code.  A fleet of one vehicle whose identifier is the
    integer 0: the vehicle wins the scan, [if best_lcv:] takes the
    identifier for false, and the request is in neither array although the
    fleet is not empty. *)
Lemma C5_falsy_identifier_drops_request :
  fleet [0] = [0] ∧
  run_lcv_optimization scripted stable_sort_values [0] example_day
    [request_a] example_script
  = Ok ({| optimal_schedule := []; simulation_timeline := [] |},
        tl example_script).
Proof. split; vm_compute; reflexivity. Qed.

(** The same with a fleet of strings that holds the empty string. *)
Lemma empty_string_identifier_drops_request :
  run_lcv_optimization scripted stable_sort_values [""; "x"]%string
    example_day [request_a] [7; 8]
  = Ok ({| optimal_schedule := []; simulation_timeline := [] |}, []).
Proof. vm_compute; reflexivity. Qed.

(** ** The formatted values *)

Lemma digit_value_digit d : 0 ≤ d ≤ 9 → digit_value (digit d) = Some d.
Proof.
  intros Hd.
  assert (d = 0 ∨ d = 1 ∨ d = 2 ∨ d = 3 ∨ d = 4 ∨ d = 5 ∨ d = 6 ∨ d = 7
          ∨ d = 8 ∨ d = 9) as Hcases by lia.
  repeat destruct Hcases as [->|Hcases]; try reflexivity.
  subst. reflexivity.
Qed.

Lemma is_digit_digit d : 0 ≤ d ≤ 9 → is_digit (digit d) = true.
Proof. intros Hd. unfold is_digit. by rewrite digit_value_digit. Qed.

Lemma field_in_two_digits lo hi n :
  0 ≤ n ≤ 99 → lo ≤ n ≤ hi →
  field_in lo hi (digit (n / 10)) (digit (n mod 10)) = true.
Proof.
  intros Hn Hrange. unfold field_in.
  rewrite !digit_value_digit by (Z.div_mod_to_equations; lia).
  replace (10 * (n / 10) + n mod 10) with n by (Z.div_mod_to_equations; lia).
  apply andb_true_iff. split; apply Z.leb_le; lia.
Qed.

Lemma month_day_range n leapyear :
  0 ≤ n < 365 → month_day_ok leapyear n = true.
Proof.
  intros Hn.
  assert (forallb (month_day_ok leapyear) (Z.of_nat <$> seq 0 365) = true)
    as Hall by (destruct leapyear; vm_compute; reflexivity).
  rewrite forallb_forall in Hall. apply Hall.
  apply list_elem_of_In, list_elem_of_fmap. exists (Z.to_nat n).
  split; [lia|]. apply list_elem_of_In, in_seq. lia.
Qed.

Lemma ord2ymd_range n :
  1 ≤ n ≤ Datetime.max_ordinal →
  1 ≤ (Calendar.ord2ymd n).1.1 ≤ 9999 ∧
  1 ≤ (Calendar.ord2ymd n).1.2 ≤ 12 ∧
  1 ≤ (Calendar.ord2ymd n).2 ≤ 31.
Proof.
  unfold Datetime.max_ordinal, Calendar.ord2ymd, Calendar.DI400Y,
    Calendar.DI100Y, Calendar.DI4Y.
  intros Hn.
  set (n0 := n - 1).
  set (n400 := n0 / 146097). set (r400 := n0 mod 146097).
  set (n100 := r400 / 36524). set (r100 := r400 mod 36524).
  set (n4 := r100 / 1461). set (r4 := r100 mod 1461).
  set (n1 := r4 / 365). set (r1 := r4 mod 365).
  assert (0 ≤ n0 ≤ 3652058) as Hn0 by (unfold n0; lia).
  assert (n0 = 146097 * n400 + r400 ∧ 0 ≤ r400 < 146097) as [E400 B400]
    by (unfold n400, r400; Z.div_mod_to_equations; lia).
  assert (r400 = 36524 * n100 + r100 ∧ 0 ≤ r100 < 36524) as [E100 B100]
    by (unfold n100, r100; Z.div_mod_to_equations; lia).
  assert (r100 = 1461 * n4 + r4 ∧ 0 ≤ r4 < 1461) as [E4 B4]
    by (unfold n4, r4; Z.div_mod_to_equations; lia).
  assert (r4 = 365 * n1 + r1 ∧ 0 ≤ r1 < 365) as [E1 B1]
    by (unfold n1, r1; Z.div_mod_to_equations; lia).
  clearbody n400 r400 n100 r100 n4 r4 n1 r1 n0.
  assert (0 ≤ n400 ∧ 0 ≤ n100 ∧ 0 ≤ n4 ∧ 0 ≤ n1) as (P400 & P100 & P4 & P1)
    by lia.
  destruct ((n1 =? 4) || (n100 =? 4)) eqn:Hspecial.
  - simpl. apply orb_true_iff in Hspecial as [?%Z.eqb_eq|?%Z.eqb_eq]; lia.
  - apply orb_false_iff in Hspecial as [?%Z.eqb_neq ?%Z.eqb_neq].
    pose proof (month_day_range r1
      ((n1 =? 3) && (negb (n4 =? 24) || (n100 =? 3))) B1) as Hmd.
    unfold month_day_ok in Hmd.
    destruct (Calendar.month_day r1 _) as [m d]. simpl.
    apply andb_true_iff in Hmd as [Hmd Hd2].
    apply andb_true_iff in Hmd as [Hmd Hd1].
    apply andb_true_iff in Hmd as [Hm1 Hm2].
    apply Z.leb_le in Hm1, Hm2, Hd1, Hd2. lia.
Qed.

Lemma fields_of_ok t : Datetime.valid t → fields_ok (Calendar.fields_of t).
Proof.
  unfold Datetime.valid, Datetime.datetime_min, Datetime.datetime_max.
  intros Ht. unfold Calendar.fields_of.
  pose proof (ord2ymd_range (t / Datetime.us_per_day + 1)) as Hymd.
  destruct (Calendar.ord2ymd _) as [[y m] d]. simpl in Hymd.
  unfold fields_ok. simpl.
  unfold Datetime.max_ordinal, Datetime.us_per_day, Datetime.us_per_hour,
    Datetime.us_per_minute, Datetime.us_per_second in *.
  split_and!; try (apply Hymd; Z.div_mod_to_equations; lia);
    Z.div_mod_to_equations; lia.
Qed.

(** The year of a time from 1000-01-01 on has four digits. *)
Lemma ord2ymd_from_1000 n :
  364878 ≤ n ≤ Datetime.max_ordinal → 1000 ≤ (Calendar.ord2ymd n).1.1.
Proof.
  unfold Datetime.max_ordinal, Calendar.ord2ymd, Calendar.DI400Y,
    Calendar.DI100Y, Calendar.DI4Y.
  intros Hn.
  set (n0 := n - 1).
  set (n400 := n0 / 146097). set (r400 := n0 mod 146097).
  set (n100 := r400 / 36524). set (r100 := r400 mod 36524).
  set (n4 := r100 / 1461). set (r4 := r100 mod 1461).
  set (n1 := r4 / 365). set (r1 := r4 mod 365).
  assert (364877 ≤ n0 ≤ 3652058) as Hn0 by (unfold n0; lia).
  assert (n0 = 146097 * n400 + r400 ∧ 0 ≤ r400 < 146097) as [E400 B400]
    by (unfold n400, r400; Z.div_mod_to_equations; lia).
  assert (r400 = 36524 * n100 + r100 ∧ 0 ≤ r100 < 36524) as [E100 B100]
    by (unfold n100, r100; Z.div_mod_to_equations; lia).
  assert (r100 = 1461 * n4 + r4 ∧ 0 ≤ r4 < 1461) as [E4 B4]
    by (unfold n4, r4; Z.div_mod_to_equations; lia).
  assert (r4 = 365 * n1 + r1 ∧ 0 ≤ r1 < 365) as [E1 B1]
    by (unfold n1, r1; Z.div_mod_to_equations; lia).
  clearbody n400 r400 n100 r100 n4 r4 n1 r1 n0.
  assert (0 ≤ n400 ∧ 0 ≤ n100 ∧ 0 ≤ n4 ∧ 0 ≤ n1) as (P400 & P100 & P4 & P1)
    by lia.
  destruct ((n1 =? 4) || (n100 =? 4)) eqn:Hspecial.
  - simpl. apply orb_true_iff in Hspecial as [?%Z.eqb_eq|?%Z.eqb_eq]; lia.
  - apply orb_false_iff in Hspecial as [?%Z.eqb_neq ?%Z.eqb_neq].
    destruct (Calendar.month_day r1 _) as [m d]. simpl. lia.
Qed.

Lemma fields_of_from_1000 t :
  Datetime.valid t → Datetime.year_1000 ≤ t →
  1000 ≤ Calendar.year (Calendar.fields_of t).
Proof.
  unfold Datetime.valid, Datetime.datetime_min, Datetime.datetime_max,
    Datetime.year_1000.
  intros Ht Hfrom. unfold Calendar.fields_of.
  pose proof (ord2ymd_from_1000 (t / Datetime.us_per_day + 1)) as Hymd.
  destruct (Calendar.ord2ymd _) as [[y m] d]. simpl in *.
  apply Hymd.
  unfold Datetime.max_ordinal, Datetime.us_per_day, Datetime.us_per_hour,
    Datetime.us_per_minute, Datetime.us_per_second in *.
  Z.div_mod_to_equations; lia.
Qed.

Lemma list_ascii_of_string_app s1 s2 :
  list_ascii_of_string (s1 +:+ s2)
  = list_ascii_of_string s1 ++ list_ascii_of_string s2.
Proof.
  induction s1 as [|c s1 IH]; [done|].
  change (String c s1 +:+ s2) with (String c (s1 +:+ s2)).
  simpl. by rewrite IH.
Qed.

(** The fields after the year are printed on two digits each. *)
Lemma render_rest_format f :
  fields_ok f →
  timestamp_tail (list_ascii_of_string (Calendar.render_rest f)) = true.
Proof.
  intros (Hy & Hm & Hd & Hh & Hn & Hs).
  unfold timestamp_tail, Calendar.render_rest, two_digits.
  cbv [String.append list_ascii_of_string].
  rewrite !field_in_two_digits by lia.
  reflexivity.
Qed.

Lemma render_rest_length f :
  length (list_ascii_of_string (Calendar.render_rest f)) = 15%nat.
Proof. reflexivity. Qed.

(** A year from 1 to 9999 is printed on one to four digits, the first
    not a zero. *)
Lemma decimal_printed_year y :
  1 ≤ y ≤ 9999 → printed_year (list_ascii_of_string (decimal y)) = true.
Proof.
  intros Hy.
  assert (forallb (λ y, printed_year (list_ascii_of_string (decimal y)))
            (seqZ 1 9999) = true) as Hall by (vm_compute; reflexivity).
  rewrite forallb_forall in Hall. apply Hall.
  apply list_elem_of_In, elem_of_seqZ. lia.
Qed.

(** A year from 1000 to 9999 is printed on four digits. *)
Lemma decimal_four_digits y :
  1000 ≤ y ≤ 9999 →
  ∃ y1 y2 y3 y4,
    list_ascii_of_string (decimal y) = [y1; y2; y3; y4] ∧
    is_digit y1 && is_digit y2 && is_digit y3 && is_digit y4 = true.
Proof.
  intros Hy.
  assert (forallb (λ y, match list_ascii_of_string (decimal y) with
                        | [y1; y2; y3; y4] =>
                            is_digit y1 && is_digit y2 && is_digit y3
                            && is_digit y4
                        | _ => false
                        end) (seqZ 1000 9000) = true) as Hall
    by (vm_compute; reflexivity).
  rewrite forallb_forall in Hall.
  specialize (Hall y). cbv beta in Hall.
  destruct (list_ascii_of_string (decimal y))
    as [|y1 [|y2 [|y3 [|y4 [|y5 ys]]]]];
    try (discriminate Hall; apply list_elem_of_In, elem_of_seqZ; lia).
  exists y1, y2, y3, y4. split; [done|].
  apply Hall, list_elem_of_In, elem_of_seqZ. lia.
Qed.

(** A time is printed with the year as [%Y] prints it and the other
    fields on two digits. *)
Lemma strftime_printed t :
  Datetime.valid t → printed_timestamp_format (strftime t) = true.
Proof.
  intros Ht. pose proof (fields_of_ok t Ht) as Hf.
  unfold printed_timestamp_format, strftime, Calendar.render.
  rewrite list_ascii_of_string_app, length_app, render_rest_length.
  rewrite Nat.add_sub, take_app_length, drop_app_length.
  rewrite render_rest_format by done.
  rewrite decimal_printed_year by apply Hf. reflexivity.
Qed.

(** A time from the year 1000 on is printed in the format
    [YYYY-MM-DD HH:MM:SS]. *)
Lemma strftime_format t :
  Datetime.valid t → Datetime.year_1000 ≤ t →
  timestamp_format (strftime t) = true.
Proof.
  intros Ht Hfrom. pose proof (fields_of_ok t Ht) as Hf.
  pose proof (fields_of_from_1000 t Ht Hfrom) as Hy.
  unfold timestamp_format, strftime, Calendar.render.
  rewrite list_ascii_of_string_app.
  destruct (decimal_four_digits (Calendar.year (Calendar.fields_of t)))
    as (y1 & y2 & y3 & y4 & -> & Hdigits); [destruct Hf; lia|].
  cbn [app]. by rewrite Hdigits, render_rest_format.
Qed.

Lemma string_of_uint_digits (d : Decimal.uint) :
  Forall (λ c, is_digit c = true)
    (list_ascii_of_string (NilEmpty.string_of_uint d)).
Proof. induction d; simpl; constructor; done. Qed.

(** [str(n)] is one digit or more. *)
Lemma decimal_digits n :
  ∃ c cs, list_ascii_of_string (decimal n) = c :: cs ∧
          Forall (λ c, is_digit c = true) (c :: cs).
Proof.
  unfold decimal, NilZero.string_of_uint.
  pose proof (string_of_uint_digits (N.to_uint (Z.to_N n))) as Hd.
  destruct (N.to_uint (Z.to_N n)); simpl in *;
    try (eexists _, _; split; [reflexivity|]; first [exact Hd | by repeat constructor]).
Qed.

Lemma round_half_even_nonneg num den :
  0 ≤ num → 0 ≤ round_half_even num den.
Proof.
  intros Hnum. unfold round_half_even.
  assert (0 ≤ num / Z.pos den) by (apply Z.div_pos; lia).
  destruct (_ ?= _); [destruct (Z.even _)|..]; lia.
Qed.

Lemma two_decimal_chars_intro (negative : bool) c cs d1 d2 :
  Forall (λ c, is_digit c = true) (c :: cs) →
  is_digit d1 = true → is_digit d2 = true →
  two_decimal_chars
    ((if negative then ["-"%char] else []) ++ (c :: cs) ++ ["."%char]
     ++ [d1; d2]) = true.
Proof.
  intros Hdigits Hd1 Hd2.
  assert (reverse (c :: cs ++ ["."%char; d1; d2])
          = d2 :: d1 :: "."%char :: reverse (c :: cs)) as Hrev.
  { change (c :: cs ++ ["."%char; d1; d2])
      with ((c :: cs) ++ ["."%char; d1; d2]).
    rewrite reverse_app. reflexivity. }
  assert (Ascii.eqb c "-" = false) as Hc.
  { apply Forall_cons in Hdigits as [Hc _].
    destruct (Ascii.eqb_spec c "-") as [->|]; [discriminate Hc|done]. }
  assert (forallb is_digit (reverse (c :: cs)) = true) as Hall.
  { apply forallb_forall. intros d Hd.
    apply list_elem_of_In in Hd. rewrite elem_of_reverse in Hd.
    rewrite Forall_forall in Hdigits. by apply Hdigits. }
  assert (reverse (c :: cs) ≠ []) as Hne.
  { intros Hnil%(f_equal length). rewrite length_reverse in Hnil. done. }
  unfold two_decimal_chars. destruct negative; cbn [app].
  - change (Ascii.eqb "-" "-") with true. cbv iota.
    rewrite Hrev, Hd2, Hd1, Hall. simpl. by rewrite bool_decide_false.
  - rewrite Hc, Hrev, Hd2, Hd1, Hall. simpl. by rewrite bool_decide_false.
Qed.

(** A number is printed by [.2f] with exactly two decimals. *)
Lemma format_2f_format x : two_decimal_format (format_2f x) = true.
Proof.
  unfold two_decimal_format, format_2f.
  set (n := round_half_even (Z.abs (Qnum x) * 100) (Qden x)).
  assert (0 ≤ n) as Hn by (apply round_half_even_nonneg; lia).
  destruct (decimal_digits (n / 100)) as (c & cs & Hdec & Hdigits).
  rewrite !list_ascii_of_string_app, Hdec.
  unfold two_digits.
  replace (list_ascii_of_string (if Qnum x <? 0 then "-" else ""))
    with (if Qnum x <? 0 then ["-"%char] else [])
    by (by destruct (Qnum x <? 0)).
  apply two_decimal_chars_intro; [done|..];
    apply is_digit_digit; Z.div_mod_to_equations; lia.
Qed.

(** ** The formats of the returned structure *)

Section Formats.

Context {lcv : Type} `{LcvId lcv}.
Context (R : RandomSource).

Lemma initial_availability_value (all_lcvs : list lcv) start_date l t :
  initial_availability all_lcvs start_date !! l = Some t →
  t = Datetime.combine_midnight start_date.
Proof.
  unfold initial_availability.
  induction all_lcvs as [|l0 ls IH];
    [by rewrite fmap_nil, list_to_map_nil, lookup_empty|].
  rewrite fmap_cons, list_to_map_cons. simpl.
  destruct (decide (l0 = l)) as [->|Hne].
  - rewrite lookup_insert_eq. congruence.
  - by rewrite lookup_insert_ne.
Qed.

Lemma combine_midnight_valid start_date :
  0 ≤ start_date < Datetime.max_ordinal →
  Datetime.valid (Datetime.combine_midnight start_date).
Proof.
  unfold Datetime.valid, Datetime.combine_midnight, Datetime.datetime_min,
    Datetime.datetime_max, Datetime.max_ordinal, Datetime.us_per_day,
    Datetime.us_per_hour, Datetime.us_per_minute, Datetime.us_per_second.
  lia.
Qed.

Lemma assign_request_valid_times all_lcvs st req (g : rng R) st' g' :
  Datetime.valid (create_date req) →
  valid_times st →
  assign_request R all_lcvs st req g = Ok (st', g') →
  valid_times st'.
Proof.
  intros Hcreate [Hav Hsched] Hrun.
  apply assign_request_spec in Hrun
    as [-> | (i & l & t & Hi & Ht & _ & Hv & -> & _)]; [done|].
  split; simpl.
  - intros l' t'. destruct (decide (l = l')) as [->|Hne].
    + rewrite lookup_insert_eq. by intros [= <-].
    + rewrite lookup_insert_ne by done. apply Hav.
  - apply Forall_app. split; [done|]. apply Forall_singleton. simpl.
    split; [|done]. specialize (Hav l t Ht).
    unfold candidate_start, Datetime.valid in *. lia.
Qed.

Lemma vrp_heuristic_valid_times (all_lcvs : list lcv) start_date reqs
    (g : rng R) st g' :
  0 ≤ start_date < Datetime.max_ordinal →
  (∀ r, r ∈ reqs → Datetime.valid (create_date r)) →
  vrp_heuristic R all_lcvs start_date reqs g = Ok (st, g') →
  valid_times st.
Proof.
  intros Hday Hcreate Hrun. unfold vrp_heuristic in Hrun.
  refine (for_each_invariant _ valid_times reqs _ _ g st g' _ Hrun).
  - intros acc x g0 acc' g0' Hx Hacc Hstep.
    eapply assign_request_valid_times; [by apply Hcreate|done..].
  - split; simpl; [|constructor].
    intros l t ->%initial_availability_value.
    by apply combine_midnight_valid.
Qed.

End Formats.

(** ** The scenarios of the specification *)

(** Scenario A: two vehicles free since midnight and one request created
    at 08:00 that lasts 30 minutes.  The vehicle of smaller jitter wins;
    either way the request starts at 08:00 and completes at 08:30. *)
Example scenario_A_second_vehicle :
  schedule_summary
    (run_lcv_optimization scripted stable_sort_values ["V2"; "V1"]%string
       example_day [request_a] (9 :: 4 :: example_script))
  = Some [("a", "V2", "2021-07-30 08:00:00", "2021-07-30 08:30:00")]%string.
Proof. vm_compute. reflexivity. Qed.

Example scenario_A_first_vehicle :
  schedule_summary
    (run_lcv_optimization scripted stable_sort_values ["V2"; "V1"]%string
       example_day [request_a] (4 :: 9 :: example_script))
  = Some [("a", "V1", "2021-07-30 08:00:00", "2021-07-30 08:30:00")]%string.
Proof. vm_compute. reflexivity. Qed.

(** Scenario B: one vehicle and two requests created at 09:00 that last 20
    minutes each: the second waits for the vehicle. *)
Example scenario_B :
  schedule_summary
    (run_lcv_optimization scripted stable_sort_values ["V1"]%string
       example_day [request_c; request_d] example_script)
  = Some [("c", "V1", "2021-07-30 09:00:00", "2021-07-30 09:20:00");
          ("d", "V1", "2021-07-30 09:20:00", "2021-07-30 09:40:00")]%string.
Proof. vm_compute. reflexivity. Qed.

(** Scenario C: no vehicle: the arrays are empty. *)
Example scenario_C :
  run_lcv_optimization scripted stable_sort_values ([] : list string)
    example_day [request_a] example_script
  = Ok ({| optimal_schedule := []; simulation_timeline := [] |},
        example_script).
Proof. vm_compute. reflexivity. Qed.

(** ** The run returns *)

Lemma timedelta_minutes_returns n :
  0 ≤ n * Datetime.us_per_minute ≤ Datetime.datetime_max →
  Datetime.timedelta_minutes n = Ok (n * Datetime.us_per_minute).
Proof.
  unfold Datetime.timedelta_minutes, Datetime.datetime_max,
    Datetime.timedelta_min, Datetime.timedelta_max, Datetime.max_ordinal,
    Datetime.us_per_day, Datetime.us_per_hour, Datetime.us_per_minute,
    Datetime.us_per_second.
  intros Hn.
  destruct (Z.leb_spec (-999999999 * (24 * (60 * (60 * 1000000))))
              (n * (60 * 1000000)));
    destruct (Z.leb_spec (n * (60 * 1000000))
                (1000000000 * (24 * (60 * (60 * 1000000))) - 1));
    simpl; try done; lia.
Qed.

Lemma plus_minutes_returns t n :
  0 ≤ t → 0 ≤ n → t + n * Datetime.us_per_minute ≤ Datetime.datetime_max →
  plus_minutes t n = Ok (t + n * Datetime.us_per_minute).
Proof.
  intros Ht Hn Hmax. unfold plus_minutes.
  assert (0 ≤ n * Datetime.us_per_minute)
    by (unfold Datetime.us_per_minute, Datetime.us_per_second; lia).
  rewrite timedelta_minutes_returns by lia.
  apply datetime_add_Ok. split; [done|].
  unfold Datetime.valid, Datetime.datetime_min. lia.
Qed.

Lemma horizon_increasing t reqs :
  (∀ r, r ∈ reqs → Qle 0 (duration r)) → t ≤ horizon t reqs.
Proof.
  revert t. induction reqs as [|r reqs IH]; intros t Hdur; simpl; [lia|].
  assert (0 ≤ py_int (duration r))
    by (apply py_int_nonneg, Hdur; by left).
  etrans; [|apply IH; intros; apply Hdur; by right].
  unfold Datetime.us_per_minute, Datetime.us_per_second. lia.
Qed.

Section Returns.

Context {lcv : Type} `{LcvId lcv}.
Context (R : RandomSource).
Hypothesis Hlaws : RandomSourceLaws R.

Implicit Types (st : gmap lcv Z * list (assignment lcv)) (g : rng R).

(** Runs the next action of a computation, which [tac] shows to return. *)
Local Ltac returns_with tac :=
  apply bind_Ok; eexists _, _; split; [tac|].

Lemma try_lcv_returns (av : gmap lcv Z) req (s : scan lcv) l g t :
  av !! l = Some t → 0 ≤ t → 0 ≤ create_date req →
  0 ≤ py_int (duration req) →
  candidate_completion t req + jitter_max ≤ Datetime.datetime_max →
  ∃ s', try_lcv R av req s l g = Ok (s', (jitter R g).2).
Proof.
  intros Ht Ht0 Hcreate Hdur Hmax.
  pose proof (jitter_range R Hlaws g) as Hj.
  unfold candidate_completion, candidate_start in Hmax.
  assert (0 ≤ py_int (duration req) * Datetime.us_per_minute) as Hd
    by (unfold Datetime.us_per_minute, Datetime.us_per_second; lia).
  eexists. unfold try_lcv.
  returns_with ltac:(apply lift_Ok; split;
                     [by apply getitem_Ok | reflexivity]).
  returns_with ltac:(apply lift_Ok; split;
                     [apply timedelta_minutes_returns; lia | reflexivity]).
  returns_with ltac:(apply lift_Ok; split;
                     [apply datetime_add_Ok; split; [reflexivity|]
                     | reflexivity]).
  { unfold Datetime.valid, Datetime.datetime_min. lia. }
  returns_with ltac:(apply draw_Ok; split; reflexivity).
  returns_with ltac:(apply lift_Ok; split;
                     [apply datetime_add_Ok; split; [reflexivity|]
                     | reflexivity]).
  { unfold Datetime.valid, Datetime.datetime_min. lia. }
  apply ret_Ok. split; reflexivity.
Qed.

Lemma select_lcv_returns (av : gmap lcv Z) req ls bound :
  (∀ l, l ∈ ls → ∃ t, av !! l = Some t ∧ 0 ≤ t ≤ bound) →
  0 ≤ create_date req → 0 ≤ py_int (duration req) →
  candidate_completion bound req + jitter_max ≤ Datetime.datetime_max →
  ∀ (s : scan lcv) g,
    ∃ s' g', for_each (try_lcv R av req) s ls g = Ok (s', g').
Proof.
  intros Hav Hcreate Hdur Hmax.
  induction ls as [|l ls IH]; intros s g; simpl.
  - by eexists _, _.
  - destruct (Hav l ltac:(by left)) as (t & Ht & Ht0).
    destruct (try_lcv_returns av req s l g t) as (s1 & Hs1);
      [done|lia|done..| |].
    { unfold candidate_completion, candidate_start in *. lia. }
    destruct (IH ltac:(intros; apply Hav; by right) s1 (jitter R g).2)
      as (s' & g' & Hrest).
    exists s', g'. apply bind_Ok. by eexists _, _.
Qed.

Lemma assign_request_returns all_lcvs st req g bound :
  within_bound all_lcvs bound st →
  0 ≤ create_date req → Qle 0 (duration req) →
  candidate_completion bound req + jitter_max ≤ Datetime.datetime_max →
  ∃ st' g',
    assign_request R all_lcvs st req g = Ok (st', g') ∧
    within_bound all_lcvs (candidate_completion bound req) st'.
Proof.
  intros [Hav Hsched] Hcreate Hdur%py_int_nonneg Hmax.
  assert (bound ≤ candidate_completion bound req) as Hgrow.
  { unfold candidate_completion, candidate_start,
      Datetime.us_per_minute, Datetime.us_per_second. lia. }
  destruct (select_lcv_returns st.1 req all_lcvs bound Hav Hcreate Hdur Hmax
              scan_start g) as (s & g' & Hselect).
  assert (assign_request R all_lcvs st req g
          = Ok (record_assignment req st s, g')) as Hrun.
  { unfold assign_request, select_lcv. apply bind_Ok.
    eexists _, _. split; [exact Hselect|]. by apply ret_Ok. }
  exists (record_assignment req st s), g'. split; [exact Hrun|].
  apply assign_request_spec in Hrun
    as [-> | (i & l & t & Hi & Ht & _ & _ & -> & _)].
  - split.
    + intros l' Hl'. destruct (Hav l' Hl') as (t' & ? & ?).
      exists t'. split; [done|lia].
    + eapply Forall_impl; [exact Hsched|]. simpl. intros a ?. lia.
  - assert (0 ≤ t ≤ bound) as Ht0.
    { apply list_elem_of_lookup_2 in Hi. destruct (Hav l Hi) as (t' & ? & ?).
      by assert (t = t') as -> by congruence. }
    assert (candidate_completion t req ≤ candidate_completion bound req).
    { unfold candidate_completion, candidate_start. lia. }
    split; simpl.
    + intros l' Hl'. destruct (decide (l = l')) as [->|Hne].
      * rewrite lookup_insert_eq. eexists. split; [done|].
        unfold candidate_completion, candidate_start,
          Datetime.us_per_minute, Datetime.us_per_second in *. lia.
      * rewrite lookup_insert_ne by done.
        destruct (Hav l' Hl') as (t' & ? & ?). exists t'. split; [done|lia].
    + apply Forall_app. split.
      * eapply Forall_impl; [exact Hsched|]. simpl. intros a ?. lia.
      * apply Forall_singleton. simpl.
        unfold candidate_completion, candidate_start in *. lia.
Qed.

Lemma vrp_loop_returns all_lcvs reqs :
  ∀ st g bound,
  within_bound all_lcvs bound st →
  (∀ r, r ∈ reqs → 0 ≤ create_date r ∧ Qle 0 (duration r)) →
  horizon bound reqs + jitter_max ≤ Datetime.datetime_max →
  ∃ st' g',
    for_each (assign_request R all_lcvs) st reqs g = Ok (st', g') ∧
    within_bound all_lcvs (horizon bound reqs) st'.
Proof.
  induction reqs as [|r reqs IH]; intros st g bound Hst Hreqs Hmax; simpl.
  - by eexists _, _.
  - simpl in Hmax. fold (candidate_start bound r) in Hmax.
    fold (candidate_completion bound r) in Hmax.
    destruct (Hreqs r ltac:(by left)) as [Hcreate Hdur].
    pose proof (horizon_increasing (candidate_completion bound r) reqs
                  ltac:(intros; apply Hreqs; by right)) as Hinc.
    destruct (assign_request_returns all_lcvs st r g bound)
      as (st1 & g1 & Hstep & Hst1); [done..|lia|].
    destruct (IH st1 g1 (candidate_completion bound r))
      as (st' & g' & Hrest & Hst'); [done| |done|].
    { intros; apply Hreqs; by right. }
    exists st', g'. split; [|done].
    apply bind_Ok. by eexists _, _.
Qed.

Lemma simulate_stages_returns (a : assignment lcv) g :
  0 ≤ start_time a → 0 ≤ py_int (duration (request_of a)) →
  start_time a
  + py_int (duration (request_of a)) * Datetime.us_per_minute
  + stage_margin ≤ Datetime.datetime_max →
  ∃ t g', simulate_stages R a g = Ok (t, g').
Proof.
  intros Hstart Hdur Hmax.
  pose proof (randint_range R Hlaws) as Hint.
  unfold stage_margin, Datetime.us_per_minute, Datetime.us_per_second
    in Hmax.
  eexists _, _. unfold simulate_stages.
  returns_with ltac:(apply draw_Ok; split; reflexivity).
  pose proof (Hint 4 6 g ltac:(lia)) as H2.
  returns_with ltac:(apply lift_Ok; split;
                     [apply plus_minutes_returns | reflexivity]).
  1-3: unfold Datetime.us_per_minute, Datetime.us_per_second; lia.
  set (g2 := (randint R 4 6 g).2).
  returns_with ltac:(apply draw_Ok; split; reflexivity).
  pose proof (Hint 28 32 g2 ltac:(lia)) as H3.
  returns_with ltac:(apply lift_Ok; split;
                     [apply plus_minutes_returns | reflexivity]).
  1-3: unfold Datetime.us_per_minute, Datetime.us_per_second; lia.
  returns_with ltac:(apply lift_Ok; split;
                     [apply plus_minutes_returns | reflexivity]).
  1-3: unfold Datetime.us_per_minute, Datetime.us_per_second; lia.
  set (g3 := (randint R 28 32 g2).2).
  returns_with ltac:(apply draw_Ok; split; reflexivity).
  pose proof (Hint 4 6 g3 ltac:(lia)) as H5.
  returns_with ltac:(apply lift_Ok; split;
                     [apply plus_minutes_returns | reflexivity]).
  1-3: unfold Datetime.us_per_minute, Datetime.us_per_second; lia.
  set (g4 := (randint R 4 6 g3).2).
  returns_with ltac:(apply draw_Ok; split; reflexivity).
  pose proof (Hint 28 32 g4 ltac:(lia)) as H6.
  returns_with ltac:(apply lift_Ok; split;
                     [apply plus_minutes_returns | reflexivity]).
  1-3: unfold Datetime.us_per_minute, Datetime.us_per_second; lia.
  apply ret_Ok. split; reflexivity.
Qed.

Lemma simulation_loop_returns (sched : list (assignment lcv)) bound :
  Forall (λ a, 0 ≤ start_time a ∧
               0 ≤ py_int (duration (request_of a)) ∧
               start_time a
               + py_int (duration (request_of a)) * Datetime.us_per_minute
               ≤ bound) sched →
  bound + stage_margin ≤ Datetime.datetime_max →
  ∀ (res0 : results lcv) g,
    ∃ res g', for_each (simulate_assignment R) res0 sched g = Ok (res, g').
Proof.
  intros Hsched Hmax. induction Hsched as [|a sched Ha Hsched IH];
    intros res0 g; simpl.
  - by eexists _, _.
  - destruct (simulate_stages_returns a g) as (t & g1 & Ht); [lia..|].
    edestruct IH as (res & g' & Hrest).
    exists res, g'. apply bind_Ok. eexists _, _. split; [|exact Hrest].
    unfold simulate_assignment. apply bind_Ok. eexists _, _.
    split; [exact Ht|]. by apply ret_Ok.
Qed.


(** What C5 says of a fleet that is not empty holds when the identifiers
    are true values: every request of the loop is given exactly one
    assignment, in the order of the loop. *)
Lemma vrp_loop_assigns_all all_lcvs reqs :
  all_lcvs ≠ [] →
  (∀ l, l ∈ all_lcvs → truthy l = true) →
  ∀ st g bound st' g',
  within_bound all_lcvs bound st →
  (∀ r, r ∈ reqs → 0 ≤ create_date r ∧ Qle 0 (duration r)) →
  horizon bound reqs + jitter_max < Datetime.datetime_max →
  for_each (assign_request R all_lcvs) st reqs g = Ok (st', g') →
  request_of <$> st'.2 = (request_of <$> st.2) ++ reqs.
Proof.
  intros Hne Htruthy.
  induction reqs as [|r reqs IH]; intros st g bound st' g' Hst Hreqs Hmax Hrun;
    simpl in Hrun.
  - apply ret_Ok in Hrun as [-> _]. by rewrite app_nil_r.
  - apply bind_Ok in Hrun as (st1 & g1 & Hstep & Hrest).
    simpl in Hmax. fold (candidate_start bound r) in Hmax.
    fold (candidate_completion bound r) in Hmax.
    destruct (Hreqs r ltac:(by left)) as [Hcreate Hdur].
    pose proof (horizon_increasing (candidate_completion bound r) reqs
                  ltac:(intros; apply Hreqs; by right)) as Hinc.
    destruct (assign_request_returns all_lcvs st r g bound)
      as (st1' & g1' & Hstep' & Hst1); [done..|lia|].
    rewrite Hstep in Hstep'. injection Hstep' as <- <-.
    destruct (assigned_when_truthy R all_lcvs st st1 r g g1 Hstep Htruthy)
      as (a & Ha & Hreq).
    { destruct all_lcvs as [|l0 ls]; [done|].
      destruct Hst as [Hav _].
      destruct (Hav l0 ltac:(by left)) as (t & Ht & Ht0).
      exists O, l0, t. split_and!; [done..|]. simpl.
      pose proof (jitter_range R Hlaws g).
      unfold scored_completion, candidate_completion, candidate_start in *.
      lia. }
    rewrite (IH st1 g1 (candidate_completion bound r) st' g' Hst1);
      [|intros; apply Hreqs; by right|done..].
    rewrite Ha, fmap_app, <- app_assoc. simpl. by rewrite Hreq.
Qed.

End Returns.

(** ** The generator between two runs *)

(** The generator of [random] belongs to the process: a run leaves it in
    the state its draws have led to, and the next run starts from there.
    Two successive runs on the same input can so return different
    schedules (here the first run draws the jitters 9 and 4, the second
    one 0 and 0). *)
Example successive_runs_differ :
  generator_after
    (run_lcv_optimization scripted stable_sort_values example_column
       example_day [request_a] [9; 4; 0; 0; 0; 0])
  = Some [] ∧
  schedule_summary
    (run_lcv_optimization scripted stable_sort_values example_column
       example_day [request_a] [9; 4; 0; 0; 0; 0])
  = Some [("a", 2, "2021-07-30 08:00:00", "2021-07-30 08:30:00")]%string ∧
  schedule_summary
    (run_lcv_optimization scripted stable_sort_values example_column
       example_day [request_a] [])
  = Some [("a", 1, "2021-07-30 08:00:00", "2021-07-30 08:30:00")]%string.
Proof. split_and!; vm_compute; reflexivity. Qed.

(** * More properties of the computation *)

(** ** The exceptions of the computation *)

Section Raises.

Context {R : RandomSource}.

Lemma bind_Raise {A B} (c : M R A) (k : A → M R B) g e :
  bind c k g = Raise e ↔
  c g = Raise e ∨ ∃ a g1, c g = Ok (a, g1) ∧ k a g1 = Raise e.
Proof.
  unfold bind. destruct (c g) as [[a g1]|e'].
  - split; [intros Hk; right; by exists a, g1|].
    intros [?|(a' & g1' & [= <- <-] & Hk)]; done.
  - split; [intros [= ->]; by left|].
    intros [[= ->]|(a' & g1' & ? & _)]; done.
Qed.

Lemma lift_Raise {A} (r : result A) (g : rng R) e :
  lift r g = Raise e ↔ r = Raise e.
Proof. unfold lift. destruct r; split; intros [=]; by subst. Qed.

(** A loop raises in the turn of one element, after the turns of the
    elements before it have returned. *)
Lemma for_each_Raise {A B} (f : B → A → M R B) l :
  ∀ acc g e,
  for_each f acc l g = Raise e →
  ∃ l1 x l2 mid g1,
    l = l1 ++ x :: l2 ∧ for_each f acc l1 g = Ok (mid, g1)
    ∧ f mid x g1 = Raise e.
Proof.
  induction l as [|x l IH]; intros acc g e Hrun; simpl in Hrun; [done|].
  apply bind_Raise in Hrun as [Hhead|(acc' & g1 & Hhead & Htail)].
  - exists [], x, l, acc, g. done.
  - apply IH in Htail as (l1 & y & l2 & mid & g2 & -> & Hprefix & Hy).
    exists (x :: l1), y, l2, mid, g2. split_and!; [done| |done].
    simpl. apply bind_Ok. by exists acc', g1.
Qed.

End Raises.

Lemma timedelta_minutes_Raise n e :
  Datetime.timedelta_minutes n = Raise e → e = OutOfRange.
Proof.
  unfold Datetime.timedelta_minutes. destruct (_ && _); [done|].
  by intros [= <-].
Qed.

Lemma datetime_add_Raise t d e :
  Datetime.add t d = Raise e → e = OutOfRange.
Proof.
  unfold Datetime.add. destruct (Datetime.validb _); [done|].
  by intros [= <-].
Qed.

Lemma plus_minutes_Raise t n e :
  plus_minutes t n = Raise e → e = OutOfRange.
Proof.
  unfold plus_minutes.
  destruct (Datetime.timedelta_minutes n) eqn:Hd.
  - apply datetime_add_Raise.
  - intros [= <-]. by eapply timedelta_minutes_Raise.
Qed.

Section Exceptions.

Context {lcv : Type} `{LcvId lcv}.
Context (R : RandomSource).

Implicit Types (st : gmap lcv Z * list (assignment lcv)) (g : rng R).

(** The scan of a vehicle raises [KeyError] only for a vehicle that is
    not in the tracker. *)
Lemma try_lcv_Raise (av : gmap lcv Z) req (s : scan lcv) l g e :
  try_lcv R av req s l g = Raise e →
  e = OutOfRange ∨ (e = KeyError ∧ av !! l = None).
Proof.
  unfold try_lcv. intros Hrun.
  apply bind_Raise in Hrun as [Hget|(t & g1 & _ & Hrun)].
  { apply lift_Raise in Hget. unfold getitem in Hget.
    destruct (av !! l); [done|]. injection Hget as <-. by right. }
  left.
  apply bind_Raise in Hrun as [Hd|(d & g2 & _ & Hrun)].
  { apply lift_Raise in Hd. by eapply timedelta_minutes_Raise. }
  apply bind_Raise in Hrun as [Hc|(c & g3 & _ & Hrun)].
  { apply lift_Raise in Hc. by eapply datetime_add_Raise. }
  apply bind_Raise in Hrun as [Hj|(j & g4 & _ & Hrun)]; [done|].
  apply bind_Raise in Hrun as [Hs|(sc & g5 & _ & Hrun)]; [|done].
  apply lift_Raise in Hs. by eapply datetime_add_Raise.
Qed.

(** Every vehicle of the fleet is a key of the tracker. *)
Lemma assign_request_keeps_keys all_lcvs st req g st' g' :
  (∀ l, l ∈ all_lcvs → is_Some (st.1 !! l)) →
  assign_request R all_lcvs st req g = Ok (st', g') →
  ∀ l, l ∈ all_lcvs → is_Some (st'.1 !! l).
Proof.
  intros Hkeys Hrun l Hl.
  apply assign_request_spec in Hrun
    as [-> | (i & l0 & t & _ & _ & _ & _ & -> & _)]; [by apply Hkeys|].
  simpl. destruct (decide (l0 = l)) as [->|Hne].
  - rewrite lookup_insert_eq. by eexists.
  - rewrite lookup_insert_ne by done. by apply Hkeys.
Qed.

Lemma assign_request_Raise all_lcvs st req g e :
  (∀ l, l ∈ all_lcvs → is_Some (st.1 !! l)) →
  assign_request R all_lcvs st req g = Raise e → e = OutOfRange.
Proof.
  intros Hkeys Hrun. unfold assign_request, select_lcv in Hrun.
  apply bind_Raise in Hrun as [Hscan|(s & g1 & _ & Hret)]; [|done].
  apply for_each_Raise in Hscan
    as (l1 & l & l2 & s & g1 & -> & _ & Htry).
  apply try_lcv_Raise in Htry as [?|[_ Hnone]]; [done|].
  destruct (Hkeys l) as [t Ht]; [|congruence].
  rewrite elem_of_app, elem_of_cons. auto.
Qed.

Lemma simulate_stages_Raise (a : assignment lcv) g e :
  simulate_stages R a g = Raise e → e = OutOfRange.
Proof.
  unfold simulate_stages. intros Hrun.
  repeat (apply bind_Raise in Hrun as [Hnow|(? & ? & _ & Hrun)];
          [first [done | apply lift_Raise in Hnow;
                         by eapply plus_minutes_Raise]|]).
  done.
Qed.

(** The computation never raises [KeyError]: every vehicle it looks up in
    the tracker, at any request and in any state the loop has reached, is
    one of the keys the tracker was made with, and an assignment writes
    at such a key. *)
Theorem run_never_raises_KeyError sort_values (lcv_column : list lcv)
    start_date reqs g :
  run_lcv_optimization R sort_values lcv_column start_date reqs g
  ≠ Raise KeyError.
Proof.
  intros Hrun. cut (KeyError = OutOfRange); [done|].
  unfold run_lcv_optimization in Hrun.
  apply bind_Raise in Hrun as [Hvrp|(st & g1 & _ & Hsim)].
  - unfold vrp_heuristic in Hvrp.
    apply for_each_Raise in Hvrp
      as (reqs1 & req & reqs2 & mid & g1 & _ & Hprefix & Hstep).
    eapply assign_request_Raise; [|exact Hstep].
    refine (for_each_invariant _
              (λ st, ∀ l, l ∈ fleet lcv_column → is_Some (st.1 !! l))
              reqs1 _ _ g mid g1 _ Hprefix).
    + intros acc x g0 acc' g0' _ Hacc Hok.
      by eapply assign_request_keeps_keys.
    + intros l Hl. simpl. rewrite initial_availability_lookup by done.
      by eexists.
  - unfold simulation in Hsim.
    apply for_each_Raise in Hsim
      as (s1 & a & s2 & mid & g2 & _ & _ & Hstep).
    unfold simulate_assignment in Hstep.
    apply bind_Raise in Hstep as [Hstages|(t & g3 & _ & Hret)]; [|done].
    by eapply simulate_stages_Raise.
Qed.

End Exceptions.

(** ** The schedule of each vehicle *)

Section Bookings.

Context {lcv : Type} `{LcvId lcv}.
Context (R : RandomSource).

Implicit Types (st : gmap lcv Z * list (assignment lcv)) (g : rng R).

Lemma assign_request_booked all_lcvs st req g st' g' :
  Qle 0 (duration req) →
  booked st →
  assign_request R all_lcvs st req g = Ok (st', g') →
  booked st'.
Proof.
  intros Hdur%py_int_nonneg [Hcover Hnodbl] Hrun.
  apply assign_request_spec in Hrun
    as [-> | (i & l & t & _ & Ht & _ & _ & -> & _)]; [done|].
  assert (t ≤ candidate_start t req ≤ candidate_completion t req) as Hgrow.
  { unfold candidate_completion, candidate_start, Datetime.us_per_minute,
      Datetime.us_per_second. lia. }
  split; simpl.
  - intros a [Ha|Ha%list_elem_of_singleton]%elem_of_app.
    + destruct (Hcover a Ha) as (t' & Ht' & Hle).
      destruct (decide (l = assigned_lcv a)) as [->|Hne].
      * rewrite lookup_insert_eq. eexists. split; [done|].
        assert (t' = t) as -> by congruence. lia.
      * rewrite lookup_insert_ne by done. by exists t'.
    + subst a. simpl. rewrite lookup_insert_eq. eexists. split; [done|lia].
  - intros i' j a b Hij Hi Hj Hsame.
    destruct (decide (j < length st.2)%nat) as [Hlt|Hge].
    + rewrite lookup_app_l in Hi, Hj by lia. by apply (Hnodbl i' j a b).
    + pose proof (lookup_lt_Some _ _ _ Hj) as Hlen.
      rewrite length_app in Hlen. simpl in Hlen.
      rewrite lookup_app_l in Hi by lia.
      rewrite lookup_app_r in Hj by lia.
      replace (j - length st.2)%nat with O in Hj by lia.
      injection Hj as <-. simpl in *.
      destruct (Hcover a) as (t' & Ht' & Hle);
        [by eapply list_elem_of_lookup_2|].
      rewrite Hsame in Ht'. assert (t' = t) as -> by congruence. lia.
Qed.

Lemma assign_request_well_formed all_lcvs st req g st' g' :
  Forall (well_formed_assignment all_lcvs) st.2 →
  assign_request R all_lcvs st req g = Ok (st', g') →
  Forall (well_formed_assignment all_lcvs) st'.2.
Proof.
  intros Hwf Hrun.
  apply assign_request_spec in Hrun
    as [-> | (i & l & t & Hi & Ht & Htruthy & _ & -> & _)]; [done|].
  simpl. apply Forall_app. split; [done|]. apply Forall_singleton.
  unfold well_formed_assignment. simpl. split_and!; [|done| |done].
  - unfold candidate_start. lia.
  - by eapply list_elem_of_lookup_2.
Qed.

(** The schedule of the heuristic is one a fleet can carry out when the
    durations are not negative: an assignment starts at the creation of
    its request or later and ends at its start or later, it is made to a
    vehicle of the fleet, and two assignments of one vehicle never
    overlap: the later one starts when the earlier one has completed. *)
Theorem schedule_is_feasible (all_lcvs : list lcv) start_date reqs g
    (av : gmap lcv Z) (sched : list (assignment lcv)) g' :
  (∀ r, r ∈ reqs → Qle 0 (duration r)) →
  vrp_heuristic R all_lcvs start_date reqs g = Ok ((av, sched), g') →
  no_double_booking sched ∧
  Forall (λ a, create_date (request_of a) ≤ start_time a
               ≤ completion_time a
               ∧ assigned_lcv a ∈ all_lcvs) sched.
Proof.
  intros Hdur Hrun. unfold vrp_heuristic in Hrun. split.
  - cut (booked (av, sched)); [by intros [_ ?]|].
    refine (for_each_invariant _ booked reqs _ _ g (av, sched) g' _ Hrun).
    + intros acc x g0 acc' g0' Hx Hacc Hstep.
      eapply assign_request_booked; [by apply Hdur|done..].
    + split; simpl.
      * intros a Ha. by apply elem_of_nil in Ha.
      * intros i j a b _ Hi. apply lookup_lt_Some in Hi. simpl in Hi. lia.
  - cut (Forall (well_formed_assignment all_lcvs) sched
         ∧ Forall (λ a, Qle 0 (duration (request_of a))) sched).
    { intros [Hwf Hpos]. rewrite Forall_forall in Hwf, Hpos |- *.
      intros a Ha. destruct (Hwf a Ha) as (Hc & Hd & Hin & _).
      pose proof (py_int_nonneg _ (Hpos a Ha)).
      unfold Datetime.us_per_minute, Datetime.us_per_second in Hd.
      split_and!; [lia..|done]. }
    refine (for_each_invariant _
              (λ st, Forall (well_formed_assignment all_lcvs) st.2
                     ∧ Forall (λ a, Qle 0 (duration (request_of a))) st.2)
              reqs _ _ g (av, sched) g' _ Hrun).
    + intros acc x g0 acc' g0' Hx [Hwf Hpos] Hstep. split.
      * by eapply assign_request_well_formed.
      * apply assign_request_spec in Hstep
          as [-> | (i & l & t & _ & _ & _ & _ & -> & _)]; [done|].
        simpl. apply Forall_app. split; [done|].
        apply Forall_singleton. simpl. by apply Hdur.
    + split; constructor.
Qed.

End Bookings.

(** The schedule of the two example requests. *)
Lemma schedule_is_feasible_witness :
  no_double_booking example_after_b.2 ∧
  Forall (λ a, create_date (request_of a) ≤ start_time a
               ≤ completion_time a
               ∧ assigned_lcv a ∈ fleet example_column) example_after_b.2.
Proof.
  apply (schedule_is_feasible scripted (fleet example_column) example_day
           [request_a; request_b] [7; 7; 3; 9]
           example_after_b.1 example_after_b.2 []).
  - intros r Hr.
    apply elem_of_cons in Hr as [->|Hr]; [vm_compute; discriminate|].
    apply elem_of_cons in Hr as [->|Hr]; [vm_compute; discriminate|].
    by apply elem_of_nil in Hr.
  - vm_compute; reflexivity.
Defined.

(** ** What the jitter can cost *)

Section Jitter.

Context {lcv : Type} `{LcvId lcv}.
Context (R : RandomSource).

Lemma nth_jitter_range n (g : rng R) :
  RandomSourceLaws R → 0 ≤ nth_jitter R n g ≤ jitter_max.
Proof.
  intros Hlaws. revert g. induction n as [|n IH]; intros g; simpl.
  - apply (jitter_range R Hlaws).
  - apply IH.
Qed.

(** The jitter costs five minutes at most: the assignment of a request
    completes no later than five minutes after the completion that any
    vehicle of the fleet could have offered. *)
Theorem jitter_costs_at_most_five_minutes
    (all_lcvs : list lcv) (st st' : gmap lcv Z * list (assignment lcv))
    (req : request) (g g' : rng R) (a : assignment lcv) (l : lcv) (t : Z) :
  RandomSourceLaws R →
  assign_request R all_lcvs st req g = Ok (st', g') →
  st'.2 = st.2 ++ [a] →
  l ∈ all_lcvs → st.1 !! l = Some t →
  completion_time a ≤ candidate_completion t req + jitter_max.
Proof.
  intros Hlaws Hrun Hrec Hl Ht.
  apply assign_request_spec in Hrun
    as [-> | (i & l0 & t0 & Hi & Ht0 & _ & _ & -> & _ & Hmin)].
  - apply (f_equal length) in Hrec. rewrite length_app in Hrec.
    simpl in Hrec. lia.
  - simpl in Hrec. apply app_inv_head in Hrec. injection Hrec as <-.
    simpl. apply list_elem_of_lookup_1 in Hl as [j Hj].
    destruct (Hmin j l t Hj Ht) as [Hle _].
    pose proof (nth_jitter_range i g Hlaws).
    pose proof (nth_jitter_range j g Hlaws).
    unfold scored_completion in Hle. lia.
Qed.

End Jitter.

(** The first request of the examples, assigned to vehicle 1, against the
    offer of vehicle 2. *)
Lemma jitter_costs_at_most_five_minutes_witness :
  completion_time (assignment_a 1)
  ≤ candidate_completion (Datetime.combine_midnight example_day) request_a
    + jitter_max.
Proof.
  apply (jitter_costs_at_most_five_minutes scripted (fleet example_column)
           example_start example_after_a request_a [7; 7] []
           (assignment_a 1) 2 (Datetime.combine_midnight example_day)).
  - apply scripted_laws.
  - vm_compute; reflexivity.
  - vm_compute; reflexivity.
  - vm_compute. right. left.
  - vm_compute; reflexivity.
Defined.

(** ** The draws of a run *)

Section Draws.

Context {lcv : Type} `{LcvId lcv}.
Context (R : RandomSource).

Lemma after_jitters_add n m (g : rng R) :
  after_jitters R (n + m) g = after_jitters R m (after_jitters R n g).
Proof. revert g. induction n as [|n IH]; intros g; simpl; [done|apply IH]. Qed.

Lemma scan_draws (av : gmap lcv Z) req ls :
  ∀ (s s' : scan lcv) (g g' : rng R),
  for_each (try_lcv R av req) s ls g = Ok (s', g') →
  g' = after_jitters R (length ls) g.
Proof.
  induction ls as [|l ls IH]; intros s s' g g' Hrun; simpl in Hrun.
  - by apply ret_Ok in Hrun as [_ ->].
  - apply bind_Ok in Hrun as (s1 & g1 & Hhead & Htail).
    apply try_lcv_Ok in Hhead as (t & _ & -> & _).
    simpl. by eapply IH.
Qed.

Lemma vrp_loop_draws (all_lcvs : list lcv) reqs :
  ∀ (st st' : gmap lcv Z * list (assignment lcv)) (g g' : rng R),
  for_each (assign_request R all_lcvs) st reqs g = Ok (st', g') →
  g' = after_jitters R (length reqs * length all_lcvs) g.
Proof.
  induction reqs as [|r reqs IH]; intros st st' g g' Hrun; simpl in Hrun.
  - by apply ret_Ok in Hrun as [_ ->].
  - apply bind_Ok in Hrun as (st1 & g1 & Hhead & Htail).
    unfold assign_request, select_lcv in Hhead. inv_M Hhead.
    apply ret_Ok in Hhead as [_ ->].
    apply scan_draws in Hhead0 as ->.
    apply IH in Htail as ->. simpl. by rewrite after_jitters_add.
Qed.

Lemma simulation_loop_draws (sched : list (assignment lcv)) :
  ∀ (res0 res : results lcv) (g g' : rng R),
  for_each (simulate_assignment R) res0 sched g = Ok (res, g') →
  g' = after_stages R (length sched) g.
Proof.
  induction sched as [|a sched IH]; intros res0 res g g' Hrun;
    simpl in Hrun.
  - by apply ret_Ok in Hrun as [_ ->].
  - apply bind_Ok in Hrun as (res1 & g1 & Hhead & Htail).
    apply IH in Htail as ->. simpl. f_equal.
    unfold simulate_assignment in Hhead. inv_M Hhead.
    apply ret_Ok in Hhead as [_ ->].
    unfold simulate_stages in Hhead0. inv_M Hhead0.
    apply draw_Ok in Hhead1 as [_ ->].
    apply lift_Ok in Hhead2 as [_ ->].
    apply draw_Ok in Hhead3 as [_ ->].
    apply lift_Ok in Hhead4 as [_ ->].
    apply lift_Ok in Hhead5 as [_ ->].
    apply draw_Ok in Hhead6 as [_ ->].
    apply lift_Ok in Hhead7 as [_ ->].
    apply draw_Ok in Hhead8 as [_ ->].
    apply lift_Ok in Hhead9 as [_ ->].
    by apply ret_Ok in Hhead0 as [_ ->].
Qed.

(** The draws of a run are counted by its sizes: one jitter for every
    vehicle at every request, whatever the scores, then four stage draws
    for every entry of the schedule. *)
Theorem run_draws sort_values (lcv_column : list lcv) start_date reqs
    (g : rng R) (res : results lcv) g' :
  run_lcv_optimization R sort_values lcv_column start_date reqs g
  = Ok (res, g') →
  g' = after_stages R (length (optimal_schedule res))
         (after_jitters R
            (length (sort_values reqs) * length (fleet lcv_column)) g).
Proof.
  intros (av & sched & g1 & Hvrp & Hsim)%run_lcv_optimization_Ok.
  apply vrp_loop_draws in Hvrp as ->.
  pose proof (simulation_loop _ _ _ _ _ _ Hsim) as [Hsched _].
  apply simulation_loop_draws in Hsim as ->.
  simpl in Hsched. by rewrite Hsched, length_fmap.
Qed.

End Draws.

(** The run of the two example requests: four jitters, eight stage draws. *)
Lemma run_draws_witness :
  [] = after_stages scripted (length (optimal_schedule example_results))
         (after_jitters scripted
            (length (stable_sort_values [request_b; request_a])
             * length (fleet example_column)) example_script).
Proof.
  apply (run_draws scripted stable_sort_values example_column example_day
           [request_b; request_a] example_script example_results []).
  vm_compute; reflexivity.
Defined.

(** ** The timeline against the schedule *)

Section Timeline.

Context {lcv : Type} `{LcvId lcv}.
Context (R : RandomSource).

Lemma vrp_heuristic_well_formed (all_lcvs : list lcv) start_date reqs
    (g : rng R) st g' :
  vrp_heuristic R all_lcvs start_date reqs g = Ok (st, g') →
  Forall (well_formed_assignment all_lcvs) st.2.
Proof.
  intros Hrun. unfold vrp_heuristic in Hrun.
  refine (for_each_invariant _
            (λ st, Forall (well_formed_assignment all_lcvs) st.2)
            reqs _ _ g st g' _ Hrun).
  - intros acc x g0 acc' g0' _ Hacc Hstep.
    by eapply assign_request_well_formed.
  - constructor.
Qed.


(** No entry of the two arrays carries a vehicle that is not in the
    column [lcv_id] of the frame, nor one whose identifier is a false
    value (0, the empty string). *)
Theorem output_vehicles sort_values (lcv_column : list lcv)
    start_date reqs (g : rng R) (res : results lcv) g' :
  run_lcv_optimization R sort_values lcv_column start_date reqs g
  = Ok (res, g') →
  Forall (λ e, Assigned_LCV_ID e ∈ lcv_column
               ∧ truthy (Assigned_LCV_ID e) = true)
    (optimal_schedule res) ∧
  Forall (λ e, LCV_ID e ∈ lcv_column ∧ truthy (LCV_ID e) = true)
    (simulation_timeline res).
Proof.
  intros (av & sched & g1 & Hvrp & Hsim)%run_lcv_optimization_Ok.
  pose proof (vrp_heuristic_well_formed _ _ _ _ _ _ Hvrp) as Hwf.
  simpl in Hwf.
  apply simulation_loop in Hsim as (Hsched & ts & Htl & Hts).
  simpl in Hsched, Htl. rewrite Hsched, Htl. split.
  - apply Forall_fmap. eapply Forall_impl; [exact Hwf|].
    intros a (_ & _ & Hin & Htruthy). simpl.
    by rewrite <- (fleet_elem_of lcv_column).
  - clear Hsched Htl Hvrp.
    induction Hts as [|a t sched ts Hat Hts IH]; simpl; [constructor|].
    apply Forall_cons in Hwf as [(_ & _ & Hin & Htruthy) Hwf].
    constructor; [|by apply IH]. simpl.
    by rewrite <- (fleet_elem_of lcv_column).
Qed.

(** Without a vehicle or without a request, the computation returns two
    empty arrays and makes no draw. *)
Theorem nothing_to_schedule sort_values (lcv_column : list lcv)
    start_date reqs (g : rng R) :
  lcv_column = [] ∨ sort_values reqs = [] →
  run_lcv_optimization R sort_values lcv_column start_date reqs g
  = Ok ({| optimal_schedule := []; simulation_timeline := [] |}, g).
Proof.
  intros [->| Hnone]; apply run_lcv_optimization_Ok.
  - eexists _, [], g. split; [|done].
    change (fleet []) with ([] : list lcv).
    apply empty_fleet_schedules_nothing.
  - rewrite Hnone. eexists _, [], g. split; done.
Qed.

End Timeline.


(** The vehicles of the run of the two example requests. *)
Lemma output_vehicles_witness :
  Forall (λ e, Assigned_LCV_ID e ∈ example_column
               ∧ truthy (Assigned_LCV_ID e) = true)
    (optimal_schedule example_results) ∧
  Forall (λ e, LCV_ID e ∈ example_column ∧ truthy (LCV_ID e) = true)
    (simulation_timeline example_results).
Proof.
  apply (output_vehicles scripted stable_sort_values example_column
           example_day [request_b; request_a] example_script
           example_results []).
  vm_compute; reflexivity.
Defined.

(** A request and no vehicle. *)
Lemma nothing_to_schedule_witness :
  run_lcv_optimization scripted stable_sort_values ([] : list Z)
    example_day [request_a] example_script
  = Ok ({| optimal_schedule := []; simulation_timeline := [] |},
        example_script).
Proof.
  apply (nothing_to_schedule scripted stable_sort_values ([] : list Z)
           example_day [request_a] example_script).
  by left.
Defined.

(** ** The shape of the output *)

Section Shapes.

Context {lcv : Type} `{LcvId lcv}.
Context (R : RandomSource).

Lemma schedule_entries_format (stamp : string → bool) (ok : Z → Prop)
    (sched : list (assignment lcv)) :
  (∀ t, ok t → stamp (strftime t) = true) →
  Forall (λ a, ok (start_time a) ∧ ok (completion_time a)) sched →
  Forall (λ e, schedule_entry_format stamp e = true)
    (format_schedule_entry <$> sched).
Proof.
  intros Hstamp Hsched. apply Forall_fmap.
  eapply Forall_impl; [exact Hsched|].
  intros a [Hs Hc].
  change (schedule_entry_format stamp (format_schedule_entry a) = true).
  unfold schedule_entry_format, format_schedule_entry.
  cbn [Historical_Distance_km Historical_Duration_min Start_Time
       Completion_Time].
  by rewrite !format_2f_format, !Hstamp.
Qed.

Lemma timeline_entries_format (stamp : string → bool) (ok : Z → Prop)
    (sched : list (assignment lcv)) (ts : list stage_times) :
  (∀ t, ok t → stamp (strftime t) = true) →
  Forall (λ t, ok (stage1_time t) ∧ ok (stage2_time t) ∧ ok (stage3_time t)
               ∧ ok (stage4_time t) ∧ ok (stage5_time t)
               ∧ ok (stage6_time t)) ts →
  Forall (λ e, timeline_entry_format stamp e = true)
    (zip_with format_timeline_entry sched ts).
Proof.
  intros Hstamp Hts. revert sched.
  induction Hts as [|t ts (H1 & H2 & H3 & H4 & H5 & H6) Hts IH];
    intros [|a sched]; cbn [zip_with]; try constructor; [|by apply IH].
  unfold timeline_entry_format, format_timeline_entry.
  cbn [Stages Enters_MGS Starts_Filling Filled Enters_DBS
       Starts_Emptying Emptied].
  by rewrite !Hstamp.
Qed.


End Shapes.



(** ** Every request is scheduled *)

Section Scheduled.

Context {lcv : Type} `{LcvId lcv}.
Context (R : RandomSource).

Lemma timeline_request_ids (sched : list (assignment lcv)) ts :
  length ts = length sched →
  timeline_Request_ID <$> zip_with format_timeline_entry sched ts
  = request_id <$> (request_of <$> sched).
Proof.
  revert ts. induction sched as [|a sched IH]; intros [|t ts] Hlen;
    simpl in *; try done.
  f_equal. apply IH. lia.
Qed.

Lemma run_schedules_every_request sort_values (lcv_column : list lcv)
    start_date reqs (g : rng R) :
  RandomSourceLaws R →
  lcv_column ≠ [] →
  (∀ l, l ∈ lcv_column → truthy l = true) →
  0 ≤ start_date →
  (∀ r, r ∈ sort_values reqs → 0 ≤ create_date r ∧ Qle 0 (duration r)) →
  horizon (Datetime.combine_midnight start_date) (sort_values reqs)
  + stage_margin ≤ Datetime.datetime_max →
  ∃ res g',
    run_lcv_optimization R sort_values lcv_column start_date reqs g
    = Ok (res, g') ∧
    Request_ID <$> optimal_schedule res = request_id <$> sort_values reqs ∧
    timeline_Request_ID <$> simulation_timeline res
    = request_id <$> sort_values reqs.
Proof.
  intros Hlaws Hne Htruthy Hday Hreqs Hmax.
  assert (0 ≤ Datetime.combine_midnight start_date) as Hbase.
  { unfold Datetime.combine_midnight, Datetime.us_per_day,
      Datetime.us_per_hour, Datetime.us_per_minute, Datetime.us_per_second.
    lia. }
  assert (within_bound (fleet lcv_column)
            (Datetime.combine_midnight start_date)
            (initial_availability (fleet lcv_column) start_date, []))
    as Hstart.
  { split; simpl; [|constructor]. intros l Hl.
    rewrite initial_availability_lookup by done. eexists. split; [done|lia]. }
  assert (horizon (Datetime.combine_midnight start_date) (sort_values reqs)
          + jitter_max < Datetime.datetime_max) as Hjitter.
  { unfold stage_margin, jitter_max, Datetime.us_per_minute,
      Datetime.us_per_second in *. lia. }
  destruct (vrp_loop_returns R Hlaws (fleet lcv_column) (sort_values reqs)
              _ g _ Hstart Hreqs ltac:(lia))
    as ([av sched] & g1 & Hvrp & _ & Hsched).
  simpl in Hsched.
  assert (request_of <$> sched = sort_values reqs) as Hall.
  { refine (vrp_loop_assigns_all R Hlaws (fleet lcv_column)
              (sort_values reqs) _ _ _ g _ (av, sched) g1
              Hstart Hreqs Hjitter Hvrp).
    - destruct lcv_column as [|l0 ls]; [done|].
      intros Hnil. assert (l0 ∈ fleet (l0 :: ls)) as Hin
        by (apply fleet_elem_of; by left).
      rewrite Hnil in Hin. by apply elem_of_nil in Hin.
    - intros l Hl. by apply Htruthy, fleet_elem_of. }
  destruct (simulation_loop_returns R Hlaws sched _ Hsched Hmax
              {| optimal_schedule := []; simulation_timeline := [] |} g1)
    as (res & g' & Hsim).
  exists res, g'. split.
  { apply run_lcv_optimization_Ok. by exists av, sched, g1. }
  apply simulation_loop in Hsim as (Hopt & ts & Htl & Hts).
  simpl in Hopt, Htl. rewrite Hopt, Htl, <- Hall. split.
  - by rewrite <- !list_fmap_compose.
  - apply timeline_request_ids. apply Forall2_length in Hts. lia.
Qed.


End Scheduled.



(** * The endpoint *)

Section Endpoint_properties.

Context {lcv : Type} `{LcvId lcv}.
Context (R : RandomSource).

Implicit Types (df rows : list (row lcv)) (request : OptimizationRequest).

Lemma drop_duplicates_from_elem_of seen rows r :
  r ∈ drop_duplicates_from seen rows →
  r ∈ rows ∧ request_id (request_columns r) ∉ seen.
Proof.
  revert seen. induction rows as [|r0 rows IH]; intros seen; simpl.
  - by intros ?%elem_of_nil.
  - destruct (decide (request_id (request_columns r0) ∈ seen)) as [Hin|Hnin].
    + intros [? ?]%IH. split; [by right|done].
    + intros [->|[Hr Hseen]%IH]%elem_of_cons; [split; [by left|done]|].
      split; [by right|]. by apply not_elem_of_cons in Hseen as [_ ?].
Qed.

(** The first row of every identifier is kept. *)
Lemma drop_duplicates_from_ids seen rows id :
  id ∈ (request_id ∘ request_columns) <$> drop_duplicates_from seen rows ↔
  id ∈ (request_id ∘ request_columns) <$> rows ∧ id ∉ seen.
Proof.
  revert seen. induction rows as [|r0 rows IH]; intros seen; simpl.
  - split; [by intros ?%elem_of_nil | by intros [?%elem_of_nil _]].
  - destruct (decide (request_id (request_columns r0) ∈ seen)) as [Hin|Hnin].
    + rewrite IH, elem_of_cons. split; [intros [? ?]; auto|].
      intros [[->|?] Hid]; [by destruct Hid | done].
    + simpl. rewrite !elem_of_cons, IH, not_elem_of_cons. split.
      * intros [->|(? & ? & ?)]; auto.
      * intros [[->|?] Hid]; [by left|].
        destruct (decide (id = request_id (request_columns r0)))
          as [->|?]; [by left | by right].
Qed.

Lemma drop_duplicates_from_NoDup seen rows :
  NoDup ((request_id ∘ request_columns) <$> drop_duplicates_from seen rows).
Proof.
  revert seen. induction rows as [|r0 rows IH]; intros seen; simpl.
  - constructor.
  - destruct (decide (request_id (request_columns r0) ∈ seen)); [apply IH|].
    simpl. constructor; [|apply IH].
    rewrite drop_duplicates_from_ids, not_elem_of_cons.
    intros (_ & Hid & _). by destruct Hid.
Qed.

(** The rows that are processed answer the request. *)
Lemma requests_to_process_df_elem_of df start_date request r :
  r ∈ requests_to_process_df df start_date request →
  r ∈ df ∧ answers start_date request r.
Proof.
  unfold requests_to_process_df, drop_duplicates.
  intros [Hr _]%drop_duplicates_from_elem_of.
  apply list_elem_of_filter in Hr as [Hid Hr].
  unfold filtered_by_mgs_and_date in Hr.
  apply list_elem_of_filter in Hr as [Hmgs Hr].
  unfold filtered_by_date in Hr.
  apply list_elem_of_filter in Hr as [Hdate Hr].
  done.
Qed.

(** Every identifier of a row that answers the request is processed. *)
Lemma requests_to_process_df_ids df start_date request id :
  id ∈ (request_id ∘ request_columns)
       <$> requests_to_process_df df start_date request ↔
  ∃ r, r ∈ df ∧ answers start_date request r
       ∧ request_id (request_columns r) = id.
Proof.
  unfold requests_to_process_df, drop_duplicates.
  rewrite drop_duplicates_from_ids, list_elem_of_fmap. split.
  - intros [(r & -> & Hr) _].
    apply list_elem_of_filter in Hr as [Hid Hr].
    apply list_elem_of_filter in Hr as [Hmgs Hr].
    apply list_elem_of_filter in Hr as [Hdate Hr].
    by exists r.
  - intros (r & Hr & (Hdate & Hmgs & Hid) & <-).
    split; [|apply not_elem_of_nil]. exists r. split; [done|].
    unfold filtered_by_mgs_and_date, filtered_by_date.
    by rewrite !list_elem_of_filter.
Qed.

(** The endpoint answers 404 exactly when no row of the frame has the
    date, the site and one of the identifiers of the request.  One row
    that answers is enough: the identifiers that no row answers are left
    out without an error. *)
Theorem not_found_exactly_when_nothing_answers
    sort_values strptime df request start_date (g : rng R) :
  strptime (selected_date request) = Some start_date →
  (∃ detail,
     optimize R sort_values strptime (inr df) request g
     = HTTPException 404 detail) ↔
  ¬ ∃ r, r ∈ df ∧ answers start_date request r.
Proof.
  intros Hdate. unfold optimize. rewrite Hdate.
  destruct (filtered_by_date df start_date) as [|r1 l1] eqn:H1.
  { split; [|by eexists]. intros _ (r & Hr & Hd & _).
    assert (r ∈ filtered_by_date df start_date) as Hin
      by (by apply list_elem_of_filter).
    rewrite H1 in Hin. by apply elem_of_nil in Hin. }
  destruct (filtered_by_mgs_and_date df start_date request)
    as [|r2 l2] eqn:H2.
  { split; [|by eexists]. intros _ (r & Hr & Hd & Hm & _).
    assert (r ∈ filtered_by_mgs_and_date df start_date request) as Hin.
    { unfold filtered_by_mgs_and_date, filtered_by_date.
      by rewrite !list_elem_of_filter. }
    rewrite H2 in Hin. by apply elem_of_nil in Hin. }
  destruct (requests_to_process_df df start_date request)
    as [|r3 l3] eqn:H3.
  { split; [|by eexists]. intros _ (r & Hr & Hans).
    assert (request_id (request_columns r)
            ∈ (request_id ∘ request_columns)
              <$> requests_to_process_df df start_date request) as Hin
      by (apply requests_to_process_df_ids; by exists r).
    rewrite H3 in Hin. by apply elem_of_nil in Hin. }
  split.
  - intros [detail Hout].
    destruct (run_lcv_optimization _ _ _ _ _ _) as [[res g']|e]; done.
  - intros Hnone. destruct Hnone. exists r3.
    apply requests_to_process_df_elem_of. rewrite H3. by left.
Qed.

(** What the endpoint returns holds no request twice, and holds only
    requests of rows that have the date, the site and one of the
    identifiers of the request. *)
Theorem returned_requests_answer
    sort_values strptime df request start_date (g : rng R)
    (res : results lcv) g' :
  sorts_by_create_date sort_values →
  strptime (selected_date request) = Some start_date →
  optimize R sort_values strptime (inr df) request g = Returned (res, g') →
  NoDup (Request_ID <$> optimal_schedule res) ∧
  ∀ id, id ∈ Request_ID <$> optimal_schedule res →
    ∃ r, r ∈ df ∧ answers start_date request r
         ∧ request_id (request_columns r) = id.
Proof.
  intros Hsort Hdate Hout. unfold optimize in Hout. rewrite Hdate in Hout.
  destruct (filtered_by_date df start_date); [done|].
  destruct (filtered_by_mgs_and_date df start_date request); [done|].
  set (rows := requests_to_process_df df start_date request) in *.
  destruct rows as [|r3 l3] eqn:Hrows; [done|]. rewrite <- Hrows in Hout.
  destruct (run_lcv_optimization R sort_values (lcv_id <$> df) start_date
              (request_columns <$> rows) g) as [[res0 g0]|e] eqn:Hrun;
    [|done].
  injection Hout as -> ->.
  apply run_lcv_optimization_Ok in Hrun as (av & sched & g1 & Hvrp & Hsim).
  apply vrp_loop_sublist in Hvrp as (new & Hnew & Hsub). simpl in Hnew.
  subst sched.
  apply simulation_loop in Hsim as (Hopt & _). simpl in Hopt.
  rewrite Hopt, <- list_fmap_compose.
  change (Request_ID ∘ format_schedule_entry)
    with (request_id ∘ @request_of lcv).
  rewrite list_fmap_compose.
  assert (request_id <$> sort_values (request_columns <$> rows)
          ≡ₚ (request_id ∘ request_columns) <$> rows) as Hperm.
  { rewrite (proj1 (Hsort _)). by rewrite <- list_fmap_compose. }
  assert ((request_id <$> (request_of <$> new))
          `sublist_of` (request_id <$> sort_values (request_columns <$> rows)))
    as Hids by (by apply fmap_sublist).
  split.
  - eapply sublist_NoDup; [|exact Hids]. rewrite Hperm.
    apply drop_duplicates_from_NoDup.
  - intros id Hid. eapply elem_of_sublist in Hid; [|exact Hids].
    rewrite Hperm in Hid. by apply requests_to_process_df_ids in Hid.
Qed.


End Endpoint_properties.

(** No row of the example frame is of the site M9. *)
Lemma not_found_exactly_when_nothing_answers_witness :
  (∃ detail,
     optimize scripted stable_sort_values example_strptime
       (inr example_frame) example_body_no_site example_script
     = HTTPException 404 detail) ↔
  ¬ ∃ r, r ∈ example_frame ∧ answers example_day example_body_no_site r.
Proof.
  apply (not_found_exactly_when_nothing_answers scripted stable_sort_values
           example_strptime example_frame example_body_no_site example_day
           example_script).
  reflexivity.
Defined.

(** The response to the example body holds the requests "a" and "b",
    each once. *)
Lemma returned_requests_answer_witness :
  NoDup (Request_ID <$> optimal_schedule example_response) ∧
  ∀ id, id ∈ Request_ID <$> optimal_schedule example_response →
    ∃ r, r ∈ example_frame ∧ answers example_day example_body r
         ∧ request_id (request_columns r) = id.
Proof.
  apply (returned_requests_answer scripted stable_sort_values
           example_strptime example_frame example_body example_day
           example_script example_response
           example_response_generator).
  - apply stable_sort_values_sorts.
  - reflexivity.
  - vm_compute; reflexivity.
Defined.


(** * The names of the columns *)

Section Columns.

Context (columns : list string).

Implicit Types (entries : list (list string * string))
  (e : list string * string) (c name : string).

Lemma find_column_Some possible_names c :
  find_column columns possible_names = Some c →
  c ∈ possible_names ∧ c ∈ columns.
Proof.
  induction possible_names as [|n names IH]; simpl; [done|].
  destruct (decide (n ∈ columns)) as [Hn|Hn].
  - intros [= <-]. split; [by left|done].
  - intros [? ?]%IH. split; [by right|done].
Qed.

Lemma find_column_None possible_names :
  find_column columns possible_names = None ↔
  ∀ n, n ∈ possible_names → n ∉ columns.
Proof.
  induction possible_names as [|n names IH]; simpl.
  - split; [by intros _ ? ?%elem_of_nil|done].
  - destruct (decide (n ∈ columns)) as [Hn|Hn].
    + split; [done|]. intros Hall. destruct (Hall n); [by left|done].
    + rewrite IH. split.
      * intros Hall m [->|Hm]%elem_of_cons; [done|by apply Hall].
      * intros Hall m Hm. apply Hall. by right.
Qed.

Lemma find_column_is_Some possible_names n :
  n ∈ possible_names → n ∈ columns →
  ∃ c, find_column columns possible_names = Some c.
Proof.
  intros Hn Hc.
  destruct (find_column columns possible_names) as [c|] eqn:Hfind;
    [by exists c|].
  rewrite find_column_None in Hfind. by destruct (Hfind n).
Qed.

Lemma dict_display_snoc entries e :
  dict_display columns (entries ++ [e])
  = <[find_column columns e.1 := e.2]> (dict_display columns entries).
Proof. unfold dict_display. by rewrite foldl_app. Qed.

(** A key of the display is the column found for an entry. *)
Lemma dict_display_lookup_Some entries k v :
  dict_display columns entries !! k = Some v →
  ∃ e, e ∈ entries ∧ find_column columns e.1 = k ∧ e.2 = v.
Proof.
  induction entries as [|e entries IH] using rev_ind.
  - unfold dict_display. simpl. by rewrite lookup_empty.
  - rewrite dict_display_snoc.
    destruct (decide (find_column columns e.1 = k)) as [<-|Hne].
    + rewrite lookup_insert_eq. intros [= <-]. exists e.
      split; [|done]. apply elem_of_app. right. by left.
    + rewrite lookup_insert_ne by done.
      intros (e' & He' & ? & ?)%IH. exists e'.
      split; [|done]. apply elem_of_app. by left.
Qed.

(** The column found for an entry is a key, and its value is the value of
    the entry. *)
Lemma dict_display_found entries e c :
  NoDup (mjoin (fst <$> entries)) →
  e ∈ entries →
  find_column columns e.1 = Some c →
  dict_display columns entries !! Some c = Some e.2.
Proof.
  induction entries as [|e0 entries IH] using rev_ind;
    intros Hnodup He Hfind.
  - by apply elem_of_nil in He.
  - rewrite dict_display_snoc.
    rewrite fmap_app, join_app in Hnodup. simpl in Hnodup.
    rewrite app_nil_r in Hnodup.
    apply NoDup_app in Hnodup as (Hl & Hdisj & _).
    apply elem_of_app in He as [He|He].
    + assert (c ∈ mjoin (fst <$> entries)) as Hc.
      { apply list_elem_of_join. exists e.1. split.
        - by apply find_column_Some in Hfind as [? _].
        - apply list_elem_of_fmap. by exists e. }
      destruct (decide (find_column columns e0.1 = Some c)) as [H0|H0].
      * apply find_column_Some in H0 as [H0 _]. by destruct (Hdisj c).
      * rewrite lookup_insert_ne by done. by apply IH.
    + apply list_elem_of_singleton in He as ->.
      by rewrite Hfind, lookup_insert_eq.
Qed.

Lemma without_None_lookup (m : gmap (option string) string) c :
  without_None m !! Some c = m !! Some c.
Proof.
  unfold without_None. apply option_eq. intros v.
  rewrite map_lookup_filter_Some. simpl. naive_solver.
Qed.

(** What the renaming does to a label. *)
Lemma renamed_label entries c :
  NoDup (mjoin (fst <$> entries)) →
  (∃ e, e ∈ entries ∧ find_column columns e.1 = Some c ∧
        default c (rename_map_of columns entries !! Some c) = e.2) ∨
  ((∀ e, e ∈ entries → find_column columns e.1 ≠ Some c) ∧
   default c (rename_map_of columns entries !! Some c) = c).
Proof.
  intros Hnodup. unfold rename_map_of. rewrite without_None_lookup.
  destruct (dict_display columns entries !! Some c) as [v|] eqn:Hlook.
  - left. apply dict_display_lookup_Some in Hlook as (e & He & Hfind & <-).
    by exists e.
  - right. split; [|done]. intros e He Hfind.
    by rewrite (dict_display_found entries e c) in Hlook.
Qed.

(** The value of an entry is a label after the renaming exactly when one
    of the spellings of the entry is a label before it. *)
Lemma renamed_has_name entries e :
  well_formed_entries entries →
  e ∈ entries →
  e.2 ∈ rename (rename_map_of columns entries) columns ↔
  ∃ n, n ∈ spellings e ∧ n ∈ columns.
Proof.
  intros (Hnames & Hvalues & Hown) He. unfold rename, spellings.
  rewrite list_elem_of_fmap. split.
  - intros (c & Hc & Hin).
    destruct (renamed_label entries c Hnames)
      as [(e' & He' & Hfind & Hv)|[_ Hv]]; rewrite Hv in Hc.
    + assert (e' = e) as ->.
      { destruct e as [names v], e' as [names' v']. simpl in *. subst v'.
        apply list_elem_of_lookup_1 in He as [i Hi].
        apply list_elem_of_lookup_1 in He' as [j Hj].
        assert (i = j) as ->.
        { eapply (NoDup_lookup _ _ _ v Hvalues);
            rewrite list_lookup_fmap; [by rewrite Hi|by rewrite Hj]. }
        congruence. }
      apply find_column_Some in Hfind as [? ?]. exists c.
      split; [|done]. apply elem_of_app. by left.
    + subst c. exists e.2. split; [|done]. apply elem_of_app. right.
      by left.
  - intros (n & [Hn|Hn]%elem_of_app & Hin).
    + destruct (find_column_is_Some e.1 n Hn Hin) as [c Hfind].
      exists c. split; [|by apply find_column_Some in Hfind as [_ ?]].
      destruct (renamed_label entries c Hnames)
        as [(e' & He' & Hfind' & Hv)|[Hnone _]].
      * rewrite Hv.
        pose proof (dict_display_found entries e c Hnames He Hfind) as H1.
        pose proof (dict_display_found entries e' c Hnames He' Hfind')
          as H2.
        congruence.
      * by destruct (Hnone e He).
    + apply list_elem_of_singleton in Hn as ->. exists e.2.
      split; [|done].
      destruct (renamed_label entries e.2 Hnames)
        as [(e' & He' & Hfind' & Hv)|[_ Hv]]; [|done].
      rewrite Hv. apply find_column_Some in Hfind' as [Hcand _].
      rewrite Forall_forall in Hown. specialize (Hown e' He').
      rewrite Forall_forall in Hown. by apply (Hown e He).
Qed.

Lemma rename_entries_well_formed : well_formed_entries rename_entries.
Proof.
  split_and!.
  - apply (bool_decide_unpack _). by vm_compute.
  - apply (bool_decide_unpack _). by vm_compute.
  - apply (bool_decide_unpack _). by vm_compute.
Qed.

Lemma entries_same_value entries e e' :
  NoDup (snd <$> entries) → e ∈ entries → e' ∈ entries → e.2 = e'.2 →
  e = e'.
Proof.
  intros Hvalues [i Hi]%list_elem_of_lookup_1 [j Hj]%list_elem_of_lookup_1
    Heq.
  assert (i = j) as ->; [|congruence].
  apply (NoDup_lookup _ _ _ e.2 Hvalues); rewrite list_lookup_fmap.
  - by rewrite Hi.
  - by rewrite Hj, Heq.
Qed.

Lemma renamed_found entries e c :
  NoDup (mjoin (fst <$> entries)) → e ∈ entries →
  find_column columns e.1 = Some c →
  default c (rename_map_of columns entries !! Some c) = e.2.
Proof.
  intros Hnames He Hfind. unfold rename_map_of.
  by rewrite without_None_lookup,
    (dict_display_found entries e c Hnames He Hfind).
Qed.

Lemma renamed_value_stays entries e :
  well_formed_entries entries → e ∈ entries →
  default e.2 (rename_map_of columns entries !! Some e.2) = e.2.
Proof.
  intros (Hnames & Hvalues & Hown) He.
  destruct (renamed_label entries e.2 Hnames)
    as [(e' & He' & Hfind' & Hv)|[_ Hv]]; [|done].
  rewrite Hv. apply find_column_Some in Hfind' as [Hcand _].
  rewrite Forall_forall in Hown. specialize (Hown e' He').
  rewrite Forall_forall in Hown. symmetry. by apply (Hown e He).
Qed.

Lemma renamed_NoDup entries :
  well_formed_entries entries →
  NoDup columns →
  NoDup (rename (rename_map_of columns entries) columns) ↔
  ∀ e c, e ∈ entries → find_column columns e.1 = Some c → c ≠ e.2 →
         e.2 ∉ columns.
Proof.
  intros Hwf Hcols. pose proof Hwf as (Hnames & Hvalues & Hown).
  unfold rename. split.
  - intros Hnodup e c He Hfind Hne Hin.
    pose proof (find_column_Some _ _ Hfind) as [_ Hc].
    apply list_elem_of_lookup_1 in Hc as [i Hi].
    apply list_elem_of_lookup_1 in Hin as [j Hj].
    assert (i = j) as ->; [|congruence].
    apply (NoDup_lookup _ _ _ e.2 Hnodup); rewrite list_lookup_fmap.
    + rewrite Hi. simpl. f_equal. by apply renamed_found.
    + rewrite Hj. simpl. f_equal. by apply renamed_value_stays.
  - intros Hcond. apply NoDup_fmap_2_strong; [|done].
    intros x y Hx Hy Heq.
    destruct (renamed_label entries x Hnames)
      as [(e1 & He1 & Hf1 & Hv1)|[_ Hv1]];
    destruct (renamed_label entries y Hnames)
      as [(e2 & He2 & Hf2 & Hv2)|[_ Hv2]];
    rewrite Hv1, Hv2 in Heq.
    + assert (e1 = e2) as -> by (by apply (entries_same_value entries)).
      congruence.
    + destruct (decide (x = e1.2)) as [->|Hne]; [done|].
      destruct (Hcond e1 x He1 Hf1 Hne). by rewrite Heq.
    + destruct (decide (y = e2.2)) as [->|Hne]; [done|].
      destruct (Hcond e2 y He2 Hf2 Hne). by rewrite <- Heq.
    + done.
Qed.

End Columns.

(** [find_column] returns the first of the possible names that is a
    column: the names before it are no columns. *)
Theorem find_column_first columns possible_names c :
  find_column columns possible_names = Some c ↔
  ∃ before after,
    possible_names = before ++ c :: after ∧
    c ∈ columns ∧
    ∀ n, n ∈ before → n ∉ columns.
Proof.
  induction possible_names as [|n names IH]; simpl.
  - split; [done|]. intros (before & after & Heq & _).
    by destruct before.
  - destruct (decide (n ∈ columns)) as [Hn|Hn].
    + split.
      * intros [= <-]. exists [], names. split_and!; [done..|].
        by intros ? ?%elem_of_nil.
      * intros (before & after & Heq & Hc & Hbefore).
        destruct before as [|b before]; simplify_eq/=; [done|].
        destruct (Hbefore b); [by left|done].
    + rewrite IH. split.
      * intros (before & after & -> & Hc & Hbefore).
        exists (n :: before), after. split_and!; [done..|].
        intros m [->|Hm]%elem_of_cons; [done|by apply Hbefore].
      * intros (before & after & Heq & Hc & Hbefore).
        destruct before as [|b before]; simplify_eq/=; [done|].
        exists before, after. split_and!; [done..|].
        intros m Hm. apply Hbefore. by right.
Qed.

(** The names of [subset] are values of the entries. *)
Lemma dropna_subset_entries name :
  name ∈ dropna_subset → ∃ e, e ∈ rename_entries ∧ e.2 = name.
Proof.
  change dropna_subset with (snd <$> take 10 rename_entries).
  intros (e & -> & He)%list_elem_of_fmap. exists e. split; [|done].
  by eapply elem_of_sublist; [|apply sublist_take].
Qed.

(** The labels of a file pass the renaming and the check of [dropna]
    exactly when every field of [subset] has one of its spellings among
    them: a possible name of its entry, or the name itself.  [dropna]
    raises exactly when a field of [subset] has none of its spellings
    among the labels; the transaction identifier is in no case asked
    for. *)
Theorem columns_accepted columns :
  ((∃ renamed, preprocessed_columns columns = Some renamed) ↔
   ∀ e, e ∈ rename_entries → e.2 ∈ dropna_subset →
        ∃ n, n ∈ spellings e ∧ n ∈ columns) ∧
  (preprocessed_columns columns = None ↔
   ∃ e, e ∈ rename_entries ∧ e.2 ∈ dropna_subset ∧
        ∀ n, n ∈ spellings e → n ∉ columns).
Proof.
  pose proof (λ e, renamed_has_name columns rename_entries e
                     rename_entries_well_formed) as Hname.
  fold (rename_map columns) in Hname.
  unfold preprocessed_columns. cbv zeta.
  destruct (decide (Forall _ dropna_subset)) as [Hall|Hnot].
  - rewrite Forall_forall in Hall.
    assert (∀ e, e ∈ rename_entries → e.2 ∈ dropna_subset →
                 ∃ n, n ∈ spellings e ∧ n ∈ columns) as Hall'.
    { intros e He Hreq. apply (Hname e He). by apply Hall. }
    split; split.
    + done.
    + by eexists.
    + done.
    + intros (e & He & Hreq & Hnone).
      destruct (Hall' e He Hreq) as (n & Hn & Hin). by destruct (Hnone n).
  - apply not_Forall_Exists in Hnot; [|apply _].
    apply Exists_exists in Hnot as (name & Hreq & Hmissing).
    destruct (dropna_subset_entries name Hreq) as (e & He & <-).
    simpl in Hmissing. rewrite (Hname e He) in Hmissing.
    split; split.
    + by intros [? ?].
    + intros Hall. destruct Hmissing. by apply Hall.
    + intros _. exists e. split_and!; [done..|].
      intros n Hn Hin. apply Hmissing. by exists n.
    + done.
Qed.

(** With labels that are distinct, the renaming gives one name to two
    columns exactly when the column found for an entry is spelt in
    another way than the name of the entry, and that name is a column as
    well. *)
Theorem renaming_keeps_labels_distinct columns :
  NoDup columns →
  NoDup (rename (rename_map columns) columns) ↔
  ∀ e c, e ∈ rename_entries → find_column columns e.1 = Some c →
         c ≠ e.2 → e.2 ∉ columns.
Proof.
  apply renamed_NoDup, rename_entries_well_formed.
Qed.

(** The example labels have "MGS" and "mgs". *)
Lemma renaming_keeps_labels_distinct_witness :
  NoDup (rename (rename_map example_columns) example_columns) ↔
  ∀ e c, e ∈ rename_entries →
         find_column example_columns e.1 = Some c →
         c ≠ e.2 → e.2 ∉ example_columns.
Proof.
  apply (renaming_keeps_labels_distinct example_columns).
  apply (bool_decide_unpack _). by vm_compute.
Defined.

(** * The rows that are processed *)

Section Processed_rows.

Context {lcv : Type} `{LcvId lcv}.

Implicit Types (df rows : list (row lcv)) (request : OptimizationRequest).

Lemma drop_duplicates_from_sublist seen rows :
  drop_duplicates_from seen rows `sublist_of` rows.
Proof.
  revert seen. induction rows as [|r0 rows IH]; intros seen; simpl.
  - done.
  - destruct (decide (request_id (request_columns r0) ∈ seen)).
    + by apply sublist_cons.
    + by apply sublist_skip.
Qed.

Lemma drop_duplicates_from_first (P : row lcv → Prop)
    `{!∀ r, Decision (P r)} seen rows r :
  r ∈ drop_duplicates_from seen (filter P rows) →
  request_id (request_columns r) ∉ seen ∧
  ∃ before after,
    rows = before ++ r :: after ∧
    ∀ r', r' ∈ before → P r' →
      request_id (request_columns r') ≠ request_id (request_columns r).
Proof.
  revert seen. induction rows as [|r0 rows IH]; intros seen.
  - by intros ?%elem_of_nil.
  - rewrite filter_cons. destruct (decide (P r0)) as [HP|HP]; simpl.
    + destruct (decide (request_id (request_columns r0) ∈ seen))
        as [Hseen|Hseen].
      * intros (Hr & before & after & -> & Hfirst)%IH. split; [done|].
        exists (r0 :: before), after. split; [done|].
        intros r' [->|Hr']%elem_of_cons; [|by apply Hfirst].
        intros _ Heq. by rewrite Heq in Hseen.
      * intros [->|Hin]%elem_of_cons.
        { split; [done|]. exists [], rows. split; [done|].
          by intros ? ?%elem_of_nil. }
        apply IH in Hin as (Hr & before & after & -> & Hfirst).
        apply not_elem_of_cons in Hr as [Hne Hr]. split; [done|].
        exists (r0 :: before), after. split; [done|].
        intros r' [->|Hr']%elem_of_cons; [done|by apply Hfirst].
    + intros (Hr & before & after & -> & Hfirst)%IH. split; [done|].
      exists (r0 :: before), after. split; [done|].
      intros r' [->|Hr']%elem_of_cons; [done|by apply Hfirst].
Qed.

(** The rows that are processed are rows of the frame, in its order, and
    the row of an identifier is the first row of the frame that has this
    identifier, the date and the site of the request: what a later row
    says of the request is not read. *)
Theorem first_row_of_each_identifier df start_date request :
  requests_to_process_df df start_date request `sublist_of` df ∧
  ∀ r, r ∈ requests_to_process_df df start_date request →
    ∃ before after,
      df = before ++ r :: after ∧
      ∀ r', r' ∈ before → answers start_date request r' →
        request_id (request_columns r') ≠ request_id (request_columns r).
Proof.
  unfold requests_to_process_df, drop_duplicates,
    filtered_by_mgs_and_date, filtered_by_date. split.
  - etrans; [apply drop_duplicates_from_sublist|].
    etrans; [apply sublist_filter|].
    etrans; [apply sublist_filter|]. apply sublist_filter.
  - intros r Hr. rewrite !list_filter_filter in Hr.
    apply drop_duplicates_from_first
      in Hr as (_ & before & after & -> & Hfirst).
    exists before, after. split; [done|].
    intros r' Hr' (Hdate & Hmgs & Hid). by apply Hfirst.
Qed.

End Processed_rows.
